(** * AxWare live results parser: a shallow embedding of [src/axware/parser.py]

    The development follows the source file top to bottom:

    - Python strings and the few [str] builtins the parser calls
      ([strip], [replace], [in], [int], [float]);
    - the two compiled regular expressions [_re_time] and [_re_run];
    - [parse_time] (a try/except around the regex match and the conversions);
    - the part of the BeautifulSoup tree the parser looks at;
    - [parse_axware_live_results]: header extraction, layout detection, the
      per-cell loop, the multi-row stitching and the final flush.

    Exceptions are values of an error monad, so that "raises" and "returns"
    are both statements about the result of a total function.

    Modelling conventions.
    - A Python [str] is a [string]; a character is its code point and only
      code points below 256 are represented.  The character classes below
      are the ones CPython uses on that range.
    - A Python [float] obtained from a lexeme [digits.digits] is the exact
      rational the lexeme denotes; rounding to a binary double is not
      represented.
    - [int] refuses a literal of more than 4300 digits, the default of
      CPython's limit on the conversion of strings to integers. *)

From Stdlib Require Import ZArith QArith Ascii String List Lia Bool.
From stdpp Require Import gmap strings list fin_maps.

(* stdpp freezes [String.append] under [simpl]; the proofs below compute with it *)
#[local] Arguments String.append !_ _ / : simpl nomatch.

Local Open Scope string_scope.
Local Open Scope list_scope.
Local Open Scope Z_scope.

(** ** Exceptions and the error monad *)

Inductive exn : Type :=
| IndexError
| AttributeError
| ValueError
| KeyError
| TypeError.

Inductive outcome (A : Type) : Type :=
| Ok (a : A)
| Raise (e : exn).

Arguments Ok {A} a.
Arguments Raise {A} e.

Definition bind {A B : Type} (m : outcome A) (k : A -> outcome B) : outcome B :=
  match m with
  | Ok a => k a
  | Raise e => Raise e
  end.

Notation "'do' x <- m ; k" := (bind m (fun x => k))
  (at level 10, x name, m at level 100, k at level 200, only parsing).
Notation "'do' ' p <- m ; k" := (bind m (fun x => let 'p := x in k))
  (at level 10, p pattern, m at level 100, k at level 200, only parsing).

(** Whether a computation returns rather than raises. *)
Definition returns {A : Type} (m : outcome A) : bool :=
  match m with
  | Ok _ => true
  | Raise _ => false
  end.

(** [try: ... except Exception: handler] *)
Definition try_except {A : Type} (body : outcome A) (handler : exn -> outcome A) : outcome A :=
  match body with
  | Ok a => Ok a
  | Raise e => handler e
  end.

(** A [for] loop whose body may raise: the first exception ends the loop. *)
Fixpoint for_each {S X : Type} (body : S -> X -> outcome S) (st : S) (xs : list X) : outcome S :=
  match xs with
  | [] => Ok st
  | x :: xs' => do st' <- body st x; for_each body st' xs'
  end.

(** ** Python strings *)

Module Str.

Definition ord (c : ascii) : N := N_of_ascii c.

(** [str.isspace] on one character, which is also the class the [re] module
    uses for [\s] in a [str] pattern. *)
Definition isspace (c : ascii) : bool :=
  let n := ord c in
  (((9 <=? n) && (n <=? 13)) || ((28 <=? n) && (n <=? 32)) || (n =? 133) || (n =? 160))%N.

(** [\d] in a [str] pattern: the decimal digits; below 256 these are 0-9. *)
Definition isdecimal (c : ascii) : bool :=
  let n := ord c in ((48 <=? n) && (n <=? 57))%N.

(** The whitespace [int] skips around a literal.  CPython maps the non-ASCII
    spaces to a blank and then skips the C locale's whitespace, so the
    ASCII separators 28-31 are not skipped. *)
Definition isspace_int (c : ascii) : bool :=
  let n := ord c in
  (((9 <=? n) && (n <=? 13)) || (n =? 32) || (n =? 133) || (n =? 160))%N.

Definition is_newline (c : ascii) : bool := (ord c =? 10)%N.

Definition digit_value (c : ascii) : Z := Z.of_N (ord c) - 48.

Definition is_empty (s : string) : bool :=
  match s with
  | EmptyString => true
  | String _ _ => false
  end.

Fixpoint all (p : ascii -> bool) (s : string) : bool :=
  match s with
  | EmptyString => true
  | String c r => p c && all p r
  end.

Fixpoint lstrip_with (p : ascii -> bool) (s : string) : string :=
  match s with
  | EmptyString => EmptyString
  | String c r => if p c then lstrip_with p r else s
  end.

Fixpoint rstrip_with (p : ascii -> bool) (s : string) : string :=
  match s with
  | EmptyString => EmptyString
  | String c r =>
      let r' := rstrip_with p r in
      if is_empty r' && p c then EmptyString else String c r'
  end.

(** [s.strip()] *)
Definition strip (s : string) : string := lstrip_with isspace (rstrip_with isspace s).

(** [s.replace(c, "")] for a one-character [c] *)
Fixpoint remove_char (c : ascii) (s : string) : string :=
  match s with
  | EmptyString => EmptyString
  | String d r => if Ascii.eqb c d then remove_char c r else String d (remove_char c r)
  end.

Fixpoint startswith (p s : string) : bool :=
  match p, s with
  | EmptyString, _ => true
  | String a p', String b s' => Ascii.eqb a b && startswith p' s'
  | String _ _, EmptyString => false
  end.

(** [sub in s] *)
Fixpoint contains (sub s : string) : bool :=
  startswith sub s ||
  match s with
  | EmptyString => false
  | String _ r => contains sub r
  end.

(** The longest prefix of characters in [p], and what follows it. *)
Fixpoint span (p : ascii -> bool) (s : string) : string * string :=
  match s with
  | EmptyString => (EmptyString, EmptyString)
  | String c r =>
      if p c then let '(a, b) := span p r in (String c a, b)
      else (EmptyString, s)
  end.

(** The value of a string of decimal digits, most significant first. *)
Fixpoint digits_value_from (acc : Z) (s : string) : Z :=
  match s with
  | EmptyString => acc
  | String c r => digits_value_from (10 * acc + digit_value c) r
  end.

Definition digits_value (s : string) : Z := digits_value_from 0 s.

(** The digits of an [int] literal: decimal digits, with single underscores
    allowed between two digits.  [prev] says whether the previous character
    was a digit. *)
Fixpoint int_digits (acc : Z) (prev : bool) (s : string) : option Z :=
  match s with
  | EmptyString => if prev then Some acc else None
  | String c r =>
      if isdecimal c then int_digits (10 * acc + digit_value c) true r
      else if Ascii.eqb c "_" then (if prev then int_digits acc false r else None)
      else None
  end.

(** The default of [sys.get_int_max_str_digits()]. *)
Definition max_str_digits : nat := 4300.

Fixpoint count (p : ascii -> bool) (s : string) : nat :=
  match s with
  | EmptyString => O
  | String c r => if p c then S (count p r) else count p r
  end.

(** A literal without its sign: refused when it has more digits than the
    limit allows (underscores are not counted), read otherwise. *)
Definition int_literal (r : string) : option Z :=
  if (max_str_digits <? count isdecimal r)%nat then None
  else int_digits 0 false r.

(** [int(s)] in base 10; [None] stands for [ValueError]. *)
Definition int (s : string) : option Z :=
  match lstrip_with isspace_int (rstrip_with isspace_int s) with
  | String "-" r => option_map Z.opp (int_literal r)
  | String "+" r => int_literal r
  | r => int_literal r
  end.

(** [float(s)] on a lexeme [digits.digits], the only shape it is called
    with; [None] stands for [ValueError]. *)
Definition float (s : string) : option Q :=
  let '(ip, r) := span isdecimal s in
  match r with
  | String "." fp =>
      if is_empty ip || is_empty fp || negb (all isdecimal fp) then None
      else Some (Qmake (digits_value (ip ++ fp)%string) (Pos.pow 10 (Pos.of_nat (String.length fp))))
  | _ => None
  end.

End Str.

(** ** The regular expressions *)

(** [_re_time = ^\s*(?P<raw_time>\d+\.\d+)(\+(?P<penalty>.+?))?\s*$]

    Whitespace, digits, the dot and the plus sign are pairwise disjoint, so
    the greedy quantifiers before the optional group never give anything
    back on backtracking: the leading whitespace and both digit runs are
    maximal. *)
Module ReTime.

(** [(?P<penalty>.+?)] followed by [\s*$]: the shortest non-empty run of
    non-newline characters after which only whitespace remains. *)
Fixpoint penalty_group (s : string) : option string :=
  match s with
  | EmptyString => None
  | String c r =>
      if Str.is_newline c then None
      else if Str.all Str.isspace r then Some (String c EmptyString)
      else option_map (String c) (penalty_group r)
  end.

(** The match object, reduced to its two named groups; an absent optional
    group is [None], as [match.group] reports it. *)
Definition rmatch (s : string) : option (string * option string) :=
  let s1 := Str.lstrip_with Str.isspace s in
  let '(ip, r1) := Str.span Str.isdecimal s1 in
  if Str.is_empty ip then None
  else
    match r1 with
    | String "." r2 =>
        let '(fp, r3) := Str.span Str.isdecimal r2 in
        if Str.is_empty fp then None
        else
          let raw_time := (ip ++ "." ++ fp)%string in
          let without_group :=
            if Str.all Str.isspace r3 then Some (raw_time, None) else None in
          match r3 with
          | String "+" r4 =>
              match penalty_group r4 with
              | Some p => Some (raw_time, Some p)
              | None => without_group
              end
          | _ => without_group
          end
    | _ => None
    end.

End ReTime.

(** [_re_run = ^\s*Run\s*(?P<num>\d+)(\s*..)?\s*$]

    The two dots are regex wildcards (any character but a newline).  Here
    the greedy [\d+] can give digits back to the wildcards, so the matcher
    tries the digit run from longest to shortest. *)
Module ReRun.

(** [..] then [\s*$] *)
Definition two_then_space (t : string) : bool :=
  match t with
  | String a (String b r) =>
      negb (Str.is_newline a) && negb (Str.is_newline b) && Str.all Str.isspace r
  | _ => false
  end.

(** [\s*..] then [\s*$], for some amount of leading whitespace *)
Fixpoint group_then_end (t : string) : bool :=
  two_then_space t ||
  match t with
  | String c r => Str.isspace c && group_then_end r
  | EmptyString => false
  end.

(** [(\s*..)?\s*$] *)
Definition tail_matches (t : string) : bool :=
  group_then_end t || Str.all Str.isspace t.

(** [\d+] over the digit run [ds] followed by [rest]: the longest non-empty
    prefix of [ds] after which the tail matches. *)
Fixpoint num_group (ds rest : string) : option string :=
  match ds with
  | EmptyString => None
  | String d ds' =>
      match num_group ds' rest with
      | Some n => Some (String d n)
      | None => if tail_matches (ds' ++ rest)%string then Some (String d EmptyString) else None
      end
  end.

Definition rmatch (s : string) : option string :=
  match Str.lstrip_with Str.isspace s with
  | String "R" (String "u" (String "n" r)) =>
      let '(ds, rest) := Str.span Str.isdecimal (Str.lstrip_with Str.isspace r) in
      num_group ds rest
  | _ => None
  end.

End ReRun.

(** ** parse_time *)

(** A run: [(raw_time, penalty_count, status)]. *)
Definition RunResult : Type := Q * Z * string.

Definition override_statuses : list string := ["dnf"; "dsq"; "off"; "out"].

(** [penalty in ("dnf", "dsq", "off", "out")]; an absent group is [None]
    and is in no tuple of strings. *)
Definition is_override (penalty : option string) : bool :=
  match penalty with
  | Some p => existsb (String.eqb p) override_statuses
  | None => false
  end.

(** The body of the [try] block, lines 20-35. *)
Definition parse_time_body (raw_value : option string) : outcome (option RunResult) :=
  match raw_value with
  | None => Ok None
  | Some s =>
      match ReTime.rmatch s with
      | None => Ok None
      | Some (raw, penalty) =>
          do raw_time <- match Str.float raw with
                         | Some t => Ok t
                         | None => Raise ValueError
                         end;
          match penalty with
          | Some p =>
              (* penalty overrides cones *)
              if is_override penalty then Ok (Some (raw_time, 0, p))
              (* penalty is just cones: [elif penalty], a non-empty string *)
              else if negb (Str.is_empty p) then
                match Str.int p with
                | Some n => Ok (Some (raw_time, n, "dirty"))
                | None => Raise ValueError
                end
              else Ok (Some (raw_time, 0, "clean"))
          | None =>
              (* clean run: [None] is in no tuple of strings and is falsy *)
              Ok (Some (raw_time, 0, "clean"))
          end
      end
  end.

(** [except Exception]: log and return [None]. *)
Definition parse_time (raw_value : option string) : outcome (option RunResult) :=
  try_except (parse_time_body raw_value) (fun _ => Ok None).

(** ** The document, as far as the parser looks at it *)

(** A [td] tag: its [.text] and whether ["valign"] is among its [.attrs]. *)
Record Td : Type := mkTd { td_text : string; td_valign : bool }.

(** A tag: the length of its [.contents], the [.string] of each [th] below
    it ([None] when a [th] has no single string) and the [td] tags below it. *)
Record Tag : Type := mkTag {
  n_contents : nat;
  ths : list (option string);
  tds : list Td
}.

(** A [table] tag is given by the tags below its first child, in document
    order; a document by its [table] tags, in document order. *)
Definition Table : Type := list Tag.
Definition Document : Type := list Table.

(** ** Values and entries *)

#[warnings="-register-all"]
Inductive value : Type :=
| VNone
| VStr (s : string)
| VInt (n : Z)
| VFloat (t : Q)
| VTuple (raw_time : Q) (penalty_count : Z) (status : string)
| VList (l : list value).

Definition of_run (r : option RunResult) : value :=
  match r with
  | Some (t, n, st) => VTuple t n st
  | None => VNone
  end.

Definition of_runs (l : option (list value)) : value :=
  match l with
  | Some rs => VList rs
  | None => VNone
  end.

Abbreviation dict := (gmap string value).

(** [d.update(e)]: the keys of [e] win. *)
Definition dict_update (d e : dict) : dict := e ∪ d.

(** Truth value of a dict: non-empty. *)
Definition truthy (d : dict) : bool := negb (Nat.eqb (size d) 0).

(** ** parse_axware_live_results *)

(** Lines 49-56: the last table, its rows with more than three children,
    and the stripped header strings. *)
Definition last_table (s : Document) : outcome Table :=
  match last s with
  | Some t => Ok t
  | None => Raise IndexError
  end.

Definition filter_rows (results_table : Table) : list Tag :=
  filter (fun x => 3 <? n_contents x)%nat results_table.

Fixpoint header_strings (cells : list (option string)) : outcome (list string) :=
  match cells with
  | [] => Ok []
  | Some t :: rest => do hs <- header_strings rest; Ok (Str.strip t :: hs)
  | None :: _ => Raise AttributeError
  end.

Definition header_and_rows (s : Document) : outcome (list string * list Tag) :=
  do results_table <- last_table s;
  match filter_rows results_table with
  | [] => Raise IndexError
  | header_row :: result_rows =>
      do headers <- header_strings (ths header_row);
      Ok (headers, result_rows)
  end.

(** Lines 59-66: the layout check. *)
Fixpoint is_multirow (headers : list string) : bool :=
  match headers with
  | [] => false
  | header :: rest =>
      if negb (Str.contains "Run" header) then is_multirow rest
      else if Str.contains ".." header then true
      else is_multirow rest
  end.

(** Lines 84-96: the value of one cell. *)
Definition cell_value (header text : string) : outcome value :=
  if Str.contains "Run" header then
    do v <- parse_time (Some text); Ok (of_run v)
  else if String.eqb header "Pax Time" then
    do v <- parse_time (Some text);
    match v with
    | Some (t, _, _) => Ok (VFloat t)
    | None => Ok VNone
    end
  else if String.eqb header "Pos" then
    match Str.int (Str.remove_char "T" text) with
    | Some n => Ok (VInt n)
    | None => Raise ValueError
    end
  else Ok (VStr text).

(** Lines 81-115: the body of the loop over [zip(headers, row_data)]; the
    state is the pair [(entry, runs)]. *)
Definition cell_step (acc : dict * list value) (hc : string * Td) : outcome (dict * list value) :=
  let '(entry, runs) := acc in
  let '(header, raw_value) := hc in
  let text := Str.strip (td_text raw_value) in
  do v <- cell_value header text;
  if Str.contains "Run" header then
    if negb (td_valign raw_value) then Ok (entry, runs)
    else
      match v with
      | VNone => Ok (entry, runs)
      | _ =>
          match ReRun.rmatch header with
          | None => Raise AttributeError
          | Some num =>
              match Str.int num with
              | Some _ => Ok (entry, runs ++ [v])
              | None => Raise ValueError
              end
          end
      end
  else Ok (<[header := v]> entry, runs).

Definition row_cells (headers : list string) (row_data : list Td) : outcome (dict * list value) :=
  for_each cell_step (∅, []) (zip headers row_data).

(** The variables that live across rows. *)
Record State : Type := mkState {
  results : list dict;
  current_entry : option dict;
  current_runs : option (list value)
}.

Definition initial : State :=
  {| results := []; current_entry := None; current_runs := None |}.

(** Lines 122-124: the previous entry is emitted only if it is truthy. *)
Definition flush_previous (st : State) : list dict :=
  match current_entry st with
  | Some ce =>
      if truthy ce then results st ++ [<["Runs" := of_runs (current_runs st)]> ce]
      else results st
  | None => results st
  end.

(** Lines 134-135 *)
Definition take_diff (ce entry : dict) : outcome dict :=
  match ce !! "Diff." with
  | Some _ => Ok ce
  | None =>
      match entry !! "Total" with
      | Some total => Ok (<["Diff." := total]> ce)
      | None => Raise KeyError
      end
  end.

(** Lines 137-138: [current_runs.append] is reached only when [runs] has an
    element. *)
Definition extend_runs (cr : option (list value)) (runs : list value) : outcome (option (list value)) :=
  match runs, cr with
  | [], _ => Ok cr
  | _ :: _, Some l => Ok (Some (l ++ runs))
  | _ :: _, None => Raise AttributeError
  end.

(** Lines 76-142: the body of the loop over [result_rows]. *)
Definition row_step (headers : list string) (multirow : bool) (st : State) (result : Tag) : outcome State :=
  let row_data := tds result in
  do '(entry, runs) <- row_cells headers row_data;
  if multirow then
    match row_data with
    | [] => Raise IndexError
    | first :: _ =>
        if negb (Str.is_empty (td_text first)) then
          Ok {| results := flush_previous st;
                current_entry := Some (dict_update ∅ entry);
                current_runs := Some runs |}
        else
          match current_entry st with
          | None => Raise TypeError
          | Some ce =>
              do ce' <- take_diff ce entry;
              do cr' <- extend_runs (current_runs st) runs;
              Ok {| results := results st; current_entry := Some ce'; current_runs := cr' |}
          end
    end
  else
    Ok {| results := results st ++ [<["Runs" := of_runs (current_runs st)]> entry];
          current_entry := current_entry st;
          current_runs := current_runs st |}.

(** Lines 145-149 *)
Definition finish (multirow : bool) (st : State) : outcome (list dict) :=
  if multirow then
    match current_entry st with
    | Some ce => Ok (results st ++ [<["Runs" := of_runs (current_runs st)]> ce])
    | None => Raise TypeError
    end
  else Ok (results st).

Definition parse_rows (headers : list string) (result_rows : list Tag) : outcome (list dict) :=
  let multirow := is_multirow headers in
  do st <- for_each (row_step headers multirow) initial result_rows;
  finish multirow st.

Definition parse_axware_live_results (s : Document) : outcome (list dict) :=
  do '(headers, result_rows) <- header_and_rows s;
  parse_rows headers result_rows.

(** ** Sample documents *)

Module Samples.

Definition th (s : string) : option string := Some s.
Definition run (s : string) : Td := mkTd s true.
Definition cell (s : string) : Td := mkTd s false.
Definition row (cells : list Td) : Tag := mkTag (length cells) [] cells.
Definition header (names : list string) : Tag := mkTag (length names) (map th names) [].
Definition rule : Tag := mkTag 1 [] [cell "Street Touring"].

(** One row per entrant. *)
Definition single : Document :=
  [ [rule];
    [ header ["Pos"; "Driver"; "Pax Time"; "Total"; "Run 1"; "Run 2"];
      rule;
      row [cell "1"; cell "Ann"; cell "30.100"; cell "35.500"; run "35.500"; run "36.020+1"];
      row [cell "2T"; cell "Bob"; cell "31.000"; cell "36.100"; run "36.100"; run "40.000+dnf"] ] ].

(** Two rows per entrant: three runs, then a gap to the leader and two runs. *)
Definition multi : Document :=
  [ [ header ["Class"; "Driver"; "Total"; "Run 1.."; "Run 2.."; "Run 3.."];
      row [cell "1"; cell "Ann"; cell "35.500"; run "35.500"; run "36.020+1"; run "35.900"];
      row [cell ""; cell ""; cell "-2.345"; run "35.700"; run "35.800+2"; cell ""] ] ].

(** As [multi], with the column headed [Total] relabelled. *)
Definition relabelled : Document :=
  [ [ header ["Class"; "Driver"; "Time"; "Run 1.."; "Run 2.."; "Run 3.."];
      row [cell "1"; cell "Ann"; cell "35.500"; run "35.500"; run "36.020+1"; run "35.900"];
      row [cell ""; cell ""; cell "-2.345"; run "35.700"; run "35.800+2"; cell ""] ] ].

(** A multi-row table with a run column headed [Run 1xy]. *)
Definition wildcard_run : Document :=
  [ [ header ["Class"; "Driver"; "Total"; "Run 1xy"; "Run 2.."];
      row [cell "1"; cell "Ann"; cell "35.500"; run "35.500"; run "36.020+1"] ] ].

(** A multi-row table without result rows. *)
Definition no_rows : Document :=
  [ [ header ["Class"; "Driver"; "Total"; "Run 1.."; "Run 2.."; "Run 3.."] ] ].

(** A multi-row table that starts with a continuation row. *)
Definition orphan : Document :=
  [ [ header ["Class"; "Driver"; "Total"; "Run 1.."; "Run 2.."; "Run 3.."];
      row [cell ""; cell ""; cell "-2.345"; run "35.700"; run "35.800+2"; cell ""] ] ].

(** A results table with a position that is not a number. *)
Definition bad_pos : Document :=
  [ [ header ["Pos"; "Driver"; "Total"; "Run 1"];
      row [cell "1"; cell "Ann"; cell "35.500"; run "35.500"];
      row [cell "abc"; cell "Bob"; cell "36.100"; run "36.100"] ] ].

(** A results table with a column for the best run. *)
Definition best_run : Document :=
  [ [ header ["Pos"; "Driver"; "Best Run"; "Run 1"];
      row [cell "1"; cell "Ann"; run "35.500"; run "35.500"] ] ].

(** An entrant on three rows, after an entrant on one. *)
Definition three_rows : Document :=
  [ [ header ["Class"; "Driver"; "Total"; "Run 1.."; "Run 2.."];
      row [cell "1"; cell "Ann"; cell "35.500"; run "35.500"; run "36.020+1"];
      row [cell "2"; cell "Bob"; cell "36.100"; run "36.100"; run "36.300"];
      row [cell ""; cell ""; cell "+0.600"; run "36.200"; run "37.000+dnf"];
      row [cell ""; cell ""; cell "ignored"; run "36.400"; cell ""] ] ].

(** A multi-row table with run columns only. *)
Definition runs_only : Document :=
  [ [ header ["Run 1.."; "Run 2.."; "Run 3.."; "Run 4.."];
      row [run "35.500"; run "36.020+1"; run "35.900"; run "35.100"];
      row [run "36.100"; run "36.300"; run "36.200"; run "36.000"] ] ].

(** A multi-row table where every entrant has one row. *)
Definition one_row_each : Document :=
  [ [ header ["Class"; "Driver"; "Total"; "Run 1.."; "Run 2.."];
      row [cell "1"; cell "Ann"; cell "35.500"; run "35.500"; run "36.020+1"];
      row [cell "2"; cell "Bob"; cell "36.100"; run "36.100"; cell ""] ] ].

End Samples.

(** ** Notions the statements use *)

(** What may follow a maximal run: nothing, or a character outside [p]. *)
Definition stops (p : ascii -> bool) (r : string) : bool :=
  match r with
  | EmptyString => true
  | String c _ => negb (p c)
  end.

(** A non-empty string of decimal digits. *)
Definition is_digits (s : string) : bool :=
  negb (Str.is_empty s) && Str.all Str.isdecimal s.

(** [c * k] *)
Fixpoint repeat_char (c : ascii) (k : nat) : string :=
  match k with
  | O => EmptyString
  | S k' => String c (repeat_char c k')
  end.

(** A digit string one digit longer than [int] accepts. *)
Definition long_digits : string := repeat_char "9" 4301.

(** The shape [Run <digits>], optionally followed by two dots, read to the
    letter: the word, one blank, decimal digits, and then nothing or two
    full stops. *)
Definition run_shape (h : string) : bool :=
  match h with
  | String "R" (String "u" (String "n" (String " " r))) =>
      let '(ds, rest) := Str.span Str.isdecimal r in
      negb (Str.is_empty ds) && (String.eqb rest "" || String.eqb rest "..")
  | _ => false
  end.

(** The number a lexeme [ip.fp] denotes. *)
Definition decimal (ip fp : string) : Q :=
  Qmake (Str.digits_value (ip ++ fp)%string) (Pos.pow 10 (Pos.of_nat (String.length fp))).

(** The lexeme [ip.fp]. *)
Definition number (ip fp : string) : string := (ip ++ "." ++ fp)%string.

Definition statuses : list string := ["clean"; "dirty"; "dnf"; "dsq"; "off"; "out"].

(** The invariant of a run as the specification words it. *)
Definition RunResult_invariant (r : RunResult) : Prop :=
  let '(raw_time, penalty_count, status) := r in
  (0 <= raw_time)%Q
  /\ 0 <= penalty_count
  /\ In status statuses
  /\ (penalty_count <> 0 -> status = "dirty")
  /\ (In status override_statuses -> penalty_count = 0).

(** The same without a sign condition on the cone count. *)
Definition RunResult_invariant_signed (r : RunResult) : Prop :=
  let '(raw_time, penalty_count, status) := r in
  (0 <= raw_time)%Q
  /\ In status statuses
  /\ (penalty_count <> 0 -> status = "dirty")
  /\ (In status override_statuses -> penalty_count = 0).

(** [sub] occurs in [s]. *)
Definition substring (sub s : string) : Prop :=
  exists a b, s = (a ++ sub ++ b)%string.

(** The run a cell contributes, in the specification's words: the cell is in
    a run column, carries a [valign] attribute and its text parses to a
    run. *)
Definition real_run (hc : string * Td) : option value :=
  let '(h, td) := hc in
  if Str.contains "Run" h && td_valign td then
    match parse_time (Some (Str.strip (td_text td))) with
    | Ok (Some (t, n, st)) => Some (VTuple t n st)
    | _ => None
    end
  else None.

Definition valid_run_cells (headers : list string) (row_data : list Td) : list value :=
  omap real_run (zip headers row_data).

(** What a result row becomes in the single-row layout: its fields, with
    [Runs] set to [None]. *)
Definition single_row_entry (headers : list string) (e : dict) (row : Tag) : Prop :=
  exists (entry : dict) (runs : list value),
    row_cells headers (tds row) = Ok (entry, runs)
    /\ runs = valid_run_cells headers (tds row)
    /\ e = <["Runs" := VNone]> entry
    /\ e !! "Runs" = Some VNone.

(** Whether a cell is read without an exception: a real run needs a header
    the run pattern accepts, with a run number [int] accepts; a position
    needs an integer literal. *)
Definition cell_ok (hc : string * Td) : bool :=
  let '(h, td) := hc in
  if Str.contains "Run" h then
    match real_run hc with
    | Some _ =>
        match ReRun.rmatch h with
        | Some num => (String.length num <=? Str.max_str_digits)%nat
        | None => false
        end
    | None => true
    end
  else if String.eqb h "Pos" then
    bool_decide (is_Some (Str.int (Str.remove_char "T" (Str.strip (td_text td)))))
  else true.

(** A row that opens an entry in the multi-row layout (its first cell has
    text) and a row that continues the open entry (its first cell has
    none). *)
Definition opens_entry (row : Tag) : bool :=
  match tds row with
  | first :: _ => negb (Str.is_empty (td_text first))
  | [] => false
  end.

Definition continues_entry (row : Tag) : bool :=
  match tds row with
  | first :: _ => Str.is_empty (td_text first)
  | [] => false
  end.

(** The keys an entry of the result may have. *)
Definition result_key (headers : list string) (k : string) : Prop :=
  k = "Runs" \/ k = "Diff." \/ (In k headers /\ Str.contains "Run" k = false).

Definition entry_keys_ok (headers : list string) (e : dict) : Prop :=
  forall k, is_Some (e !! k) -> result_key headers k.

(** An emitted entry: allowed keys, and [Runs] among them. *)
Definition emitted (headers : list string) (e : dict) : Prop :=
  is_Some (e !! "Runs") /\ entry_keys_ok headers e.

(** What the row loop keeps true of its state. *)
Definition state_ok (headers : list string) (st : State) : Prop :=
  Forall (emitted headers) (results st)
  /\ (forall ce, current_entry st = Some ce -> entry_keys_ok headers ce).

(** One if an entry is open, zero otherwise. *)
Definition open_count (st : State) : nat :=
  match current_entry st with
  | Some _ => 1
  | None => 0
  end.

(** The entry that would be emitted if the open entry were flushed now. *)
Definition pending (st : State) : list dict :=
  match current_entry st with
  | Some ce => [<["Runs" := of_runs (current_runs st)]> ce]
  | None => []
  end.

(** What a row that opens an entry and has no continuation row becomes in
    the multi-row layout: its fields and its own runs. *)
Definition own_row_entry (headers : list string) (e : dict) (row : Tag) : Prop :=
  exists (entry : dict) (runs : list value),
    row_cells headers (tds row) = Ok (entry, runs)
    /\ e = <["Runs" := VList (valid_run_cells headers (tds row))]> entry.

(** * Properties *)

Ltac run_monad := cbv beta iota delta [bind try_except negb].


(** ** Characters and strings *)

Section StringFacts.

Ltac by_char c :=
  destruct c as [[] [] [] [] [] [] [] []]; vm_compute;
  repeat split; intros; congruence.

Lemma digit_not_space c : Str.isdecimal c = true -> Str.isspace c = false.
Proof. by_char c. Qed.

Lemma digit_not_space_int c : Str.isdecimal c = true -> Str.isspace_int c = false.
Proof. by_char c. Qed.

Lemma digit_not_newline c : Str.isdecimal c = true -> Str.is_newline c = false.
Proof. by_char c. Qed.

Lemma digit_not_sign c :
  Str.isdecimal c = true -> c <> "-"%char /\ c <> "+"%char /\ c <> "."%char.
Proof. intros H; repeat split; intros ->; vm_compute in H; discriminate H. Qed.

Lemma digit_not_letter c :
  Str.isdecimal c = true -> Ascii.eqb c "d" = false /\ Ascii.eqb c "o" = false.
Proof. by_char c. Qed.

Lemma digit_value_nonneg c : Str.isdecimal c = true -> 0 <= Str.digit_value c.
Proof. by_char c. Qed.

Lemma append_empty_r (s : string) : (s ++ "")%string = s.
Proof. induction s as [|c s IH]; simpl; [reflexivity | now rewrite IH]. Qed.

Lemma append_assoc (a b c : string) : ((a ++ b) ++ c)%string = (a ++ b ++ c)%string.
Proof. induction a as [|x a IH]; simpl; [reflexivity | now rewrite IH]. Qed.

Lemma all_append p (a b : string) :
  Str.all p (a ++ b)%string = Str.all p a && Str.all p b.
Proof.
  induction a as [|c a IH]; simpl; [reflexivity|].
  rewrite IH. now rewrite andb_assoc.
Qed.

Lemma span_append p (a r : string) :
  Str.all p a = true -> stops p r = true -> Str.span p (a ++ r)%string = (a, r).
Proof.
  intros Ha Hr. induction a as [|c a IH]; simpl in *.
  - destruct r as [|d r]; simpl in *; [reflexivity|].
    apply negb_true_iff in Hr. now rewrite Hr.
  - apply andb_true_iff in Ha as [Hc Ha]. rewrite Hc, (IH Ha). reflexivity.
Qed.

Lemma span_all p (s a b : string) : Str.span p s = (a, b) -> Str.all p a = true.
Proof.
  revert a b. induction s as [|c s IH]; simpl; intros a b H.
  - now inversion H.
  - destruct (p c) eqn:Hc.
    + destruct (Str.span p s) as [a' b'] eqn:Hs. inversion H; subst; simpl.
      rewrite Hc. simpl. eapply IH; reflexivity.
    + now inversion H.
Qed.

Lemma rstrip_none p (s : string) :
  (forall c, Str.isdecimal c = true -> p c = false) ->
  Str.all Str.isdecimal s = true -> Str.rstrip_with p s = s.
Proof.
  intros Hp. induction s as [|c s IH]; simpl; [reflexivity|].
  intros H. apply andb_true_iff in H as [Hc Hs].
  rewrite (IH Hs), (Hp c Hc), andb_false_r. reflexivity.
Qed.

Lemma lstrip_none p (s : string) : stops p s = true -> Str.lstrip_with p s = s.
Proof.
  destruct s as [|c s]; simpl; [reflexivity|].
  intros H. apply negb_true_iff in H. now rewrite H.
Qed.

Lemma digits_value_from_nonneg (s : string) acc :
  Str.all Str.isdecimal s = true -> 0 <= acc -> 0 <= Str.digits_value_from acc s.
Proof.
  revert acc. induction s as [|c s IH]; simpl; intros acc H Hacc; [assumption|].
  apply andb_true_iff in H as [Hc Hs]. apply IH; [assumption|].
  pose proof (digit_value_nonneg c Hc). lia.
Qed.

Lemma int_digits_digits (s : string) acc prev :
  Str.all Str.isdecimal s = true -> (prev = true \/ s <> EmptyString) ->
  Str.int_digits acc prev s = Some (Str.digits_value_from acc s).
Proof.
  revert acc prev. induction s as [|c s IH]; simpl; intros acc prev H Hne.
  - destruct Hne as [-> | Hne]; [reflexivity | congruence].
  - apply andb_true_iff in H as [Hc Hs]. rewrite Hc. apply IH; auto.
Qed.

End StringFacts.

Section DigitStrings.

Variable n : string.
Hypothesis Hn : is_digits n = true.

Lemma digits_all : Str.all Str.isdecimal n = true.
Proof. unfold is_digits in Hn. now apply andb_true_iff in Hn. Qed.

Lemma digits_head : exists c r, n = String c r /\ Str.isdecimal c = true.
Proof.
  pose proof digits_all as Ha. unfold is_digits in Hn.
  destruct n as [|c r]; [discriminate|]. simpl in Ha.
  apply andb_true_iff in Ha as [Hc _]. eauto.
Qed.

Lemma count_digits : Str.count Str.isdecimal n = String.length n.
Proof.
  pose proof digits_all as Ha. clear Hn.
  induction n as [|c r IH]; [reflexivity|]. cbn [Str.all] in Ha.
  apply andb_true_iff in Ha as [Hc Hr]. cbn [Str.count String.length].
  now rewrite Hc, (IH Hr).
Qed.

(** On a digit string [int] is its literal part: nothing is stripped and
    there is no sign. *)
Lemma int_is_literal : Str.int n = Str.int_literal n.
Proof.
  unfold Str.int. rewrite (rstrip_none _ _ digit_not_space_int digits_all).
  destruct digits_head as (c & r & E & Hc).
  rewrite lstrip_none by (rewrite E; simpl; now rewrite (digit_not_space_int c Hc)).
  rewrite E. destruct (digit_not_sign c Hc) as (Hm & Hp & _).
  destruct c as [[] [] [] [] [] [] [] []]; try reflexivity; congruence.
Qed.

Lemma int_of_digits :
  (String.length n <= Str.max_str_digits)%nat -> Str.int n = Some (Str.digits_value n).
Proof.
  intros Hlen. rewrite int_is_literal. unfold Str.int_literal. rewrite count_digits.
  destruct (Nat.ltb_spec Str.max_str_digits (String.length n)) as [H|_]; [lia|].
  apply int_digits_digits; [apply digits_all|]. right.
  destruct digits_head as (c & r & E & _). rewrite E. discriminate.
Qed.

Lemma int_of_long_digits :
  (Str.max_str_digits < String.length n)%nat -> Str.int n = None.
Proof.
  intros Hlen. rewrite int_is_literal. unfold Str.int_literal. rewrite count_digits.
  destruct (Nat.ltb_spec Str.max_str_digits (String.length n)) as [_|H]; [reflexivity | lia].
Qed.

Lemma digits_not_override : is_override (Some n) = false.
Proof.
  destruct digits_head as (c & r & -> & Hc).
  destruct (digit_not_letter c Hc) as [Hd Ho].
  unfold is_override, override_statuses. simpl. rewrite Hd, Ho. reflexivity.
Qed.

End DigitStrings.

Lemma repeat_char_length (c : ascii) (k : nat) : String.length (repeat_char c k) = k.
Proof. induction k as [|k IH]; [reflexivity|]. cbn. now rewrite IH. Qed.

Lemma repeat_char_all (p : ascii -> bool) (c : ascii) (k : nat) :
  p c = true -> Str.all p (repeat_char c k) = true.
Proof. intros Hc. induction k as [|k IH]; [reflexivity|]. cbn. now rewrite Hc, IH. Qed.

Lemma long_digits_length : String.length long_digits = 4301%nat.
Proof. apply repeat_char_length. Qed.

Lemma long_digits_are_digits : is_digits long_digits = true.
Proof.
  unfold is_digits. apply andb_true_iff. split; [reflexivity|].
  now apply repeat_char_all.
Qed.

Lemma penalty_group_digits (n : string) :
  is_digits n = true -> ReTime.penalty_group n = Some n.
Proof.
  induction n as [|c r IH]; [discriminate|].
  intros H. pose proof (digits_all _ H) as Ha. simpl in Ha.
  apply andb_true_iff in Ha as [Hc Hr]. simpl.
  rewrite (digit_not_newline c Hc).
  destruct r as [|d r']; [reflexivity|].
  assert (Hd : is_digits (String d r') = true) by (unfold is_digits; simpl; exact Hr).
  simpl in Hr. apply andb_true_iff in Hr as [Hd' _].
  simpl Str.all. rewrite (digit_not_space d Hd'). simpl andb. cbv iota.
  now rewrite (IH Hd).
Qed.

(** ** The time grammar on well-formed lexemes *)

Section Lexemes.

Variables ip fp : string.
Hypothesis Hip : is_digits ip = true.
Hypothesis Hfp : is_digits fp = true.

Lemma digits_not_empty (n : string) : is_digits n = true -> Str.is_empty n = false.
Proof. unfold is_digits. destruct n; simpl; congruence. Qed.

Lemma float_number : Str.float (number ip fp) = Some (decimal ip fp).
Proof.
  unfold Str.float, number.
  rewrite span_append by (auto using digits_all).
  change ("." ++ fp)%string with (String "." fp). cbv iota beta.
  rewrite (digits_not_empty _ Hip), (digits_not_empty _ Hfp), (digits_all _ Hfp).
  reflexivity.
Qed.

Lemma rmatch_number (suffix : string) :
  stops Str.isdecimal suffix = true ->
  ReTime.rmatch (number ip fp ++ suffix)%string =
    let without_group :=
      if Str.all Str.isspace suffix then Some (number ip fp, None) else None in
    match suffix with
    | String "+" r4 =>
        match ReTime.penalty_group r4 with
        | Some p => Some (number ip fp, Some p)
        | None => without_group
        end
    | _ => without_group
    end.
Proof.
  intros Hs. unfold ReTime.rmatch, number. rewrite !append_assoc.
  destruct (digits_head _ Hip) as (c & r & E & Hc).
  rewrite lstrip_none
    by (rewrite E; simpl; now rewrite (digit_not_space c Hc)).
  rewrite span_append by (auto using digits_all).
  rewrite (digits_not_empty _ Hip).
  change ("." ++ fp ++ suffix)%string with (String "." (fp ++ suffix)%string).
  cbv iota beta.
  rewrite span_append by (auto using digits_all).
  rewrite (digits_not_empty _ Hfp).
  reflexivity.
Qed.

Lemma parse_time_clean : parse_time (Some (number ip fp)) = Ok (Some (decimal ip fp, 0, "clean")).
Proof.
  unfold parse_time, parse_time_body.
  rewrite <- (append_empty_r (number ip fp)) at 1.
  rewrite rmatch_number by reflexivity. simpl.
  rewrite float_number. reflexivity.
Qed.

Lemma parse_time_cones (n : string) :
  is_digits n = true ->
  parse_time (Some (number ip fp ++ "+" ++ n)%string)
  = match Str.int n with
    | Some k => Ok (Some (decimal ip fp, k, "dirty"))
    | None => Ok None
    end.
Proof.
  intros Hn. unfold parse_time, parse_time_body.
  change ("+" ++ n)%string with (String "+" n).
  rewrite rmatch_number by reflexivity. cbv beta iota zeta.
  rewrite (penalty_group_digits n Hn), float_number.
  cbv beta iota delta [bind].
  rewrite (digits_not_override n Hn), (digits_not_empty n Hn).
  now destruct (Str.int n).
Qed.

Lemma parse_time_dirty (n : string) :
  is_digits n = true -> (String.length n <= Str.max_str_digits)%nat ->
  parse_time (Some (number ip fp ++ "+" ++ n)%string)
  = Ok (Some (decimal ip fp, Str.digits_value n, "dirty")).
Proof. intros Hn Hlen. now rewrite (parse_time_cones n Hn), (int_of_digits n Hn Hlen). Qed.

Lemma parse_time_too_many_cones (n : string) :
  is_digits n = true -> (Str.max_str_digits < String.length n)%nat ->
  parse_time (Some (number ip fp ++ "+" ++ n)%string) = Ok None.
Proof. intros Hn Hlen. now rewrite (parse_time_cones n Hn), (int_of_long_digits n Hn Hlen). Qed.

Lemma parse_time_override (st : string) :
  In st override_statuses ->
  parse_time (Some (number ip fp ++ "+" ++ st)%string) = Ok (Some (decimal ip fp, 0, st)).
Proof.
  intros Hst. unfold parse_time, parse_time_body.
  rewrite rmatch_number by reflexivity.
  simpl in Hst. destruct Hst as [<- | [<- | [<- | [<- | []]]]];
    simpl; rewrite float_number; reflexivity.
Qed.

End Lexemes.

(** C3 (as amended). On a number [ip.fp] alone [parse_time] returns the
    number, no cones and the status clean; on the number followed by [+n],
    [n] a string of at most 4300 decimal digits, it returns the number, the
    count [n] and the status dirty, and with more digits than that [int]
    refuses the count and [parse_time] returns [None]; on the number
    followed by [+s], [s] one of dnf, dsq, off and out, it returns the
    number, no cones and the status [s]. *)
Theorem parse_time_suffix_rule (ip fp : string) :
  is_digits ip = true -> is_digits fp = true ->
  parse_time (Some (number ip fp)) = Ok (Some (decimal ip fp, 0, "clean"))
  /\ (forall n, is_digits n = true ->
        ((String.length n <= 4300)%nat ->
         parse_time (Some (number ip fp ++ "+" ++ n)%string)
         = Ok (Some (decimal ip fp, Str.digits_value n, "dirty")))
        /\ ((4300 < String.length n)%nat ->
            parse_time (Some (number ip fp ++ "+" ++ n)%string) = Ok None))
  /\ (forall s, In s ["dnf"; "dsq"; "off"; "out"] ->
        parse_time (Some (number ip fp ++ "+" ++ s)%string)
        = Ok (Some (decimal ip fp, 0, s))).
Proof.
  intros Hip Hfp. split; [|split].
  - now apply parse_time_clean.
  - intros n Hn. split; intros Hlen.
    + now apply parse_time_dirty.
    + now apply parse_time_too_many_cones.
  - intros s Hs. now apply parse_time_override.
Qed.

Lemma parse_time_suffix_rule_witness :
  parse_time (Some "45.123") = Ok (Some (decimal "45" "123", 0, "clean"))
  /\ parse_time (Some "45.123+2") = Ok (Some (decimal "45" "123", 2, "dirty"))
  /\ parse_time (Some ("45.123+" ++ long_digits)%string) = Ok None
  /\ parse_time (Some "45.123+off") = Ok (Some (decimal "45" "123", 0, "off")).
Proof.
  destruct (parse_time_suffix_rule "45" "123" eq_refl eq_refl) as (Hc & Hd & Ho).
  split; [exact Hc|]. split; [|split].
  - apply (proj1 (Hd "2" eq_refl)). simpl. lia.
  - apply (proj2 (Hd long_digits long_digits_are_digits)).
    rewrite long_digits_length. unfold lt. apply le_n.
  - apply (Ho "off"). simpl. tauto.
Defined.

(** A cone count of 4301 digits is an integer literal, and [parse_time]
    returns [None] on it. *)
Lemma parse_time_long_cones :
  is_digits long_digits = true
  /\ String.length long_digits = 4301%nat
  /\ parse_time (Some ("1.0+" ++ long_digits)%string) = Ok None
  /\ parse_time (Some ("1.0+" ++ long_digits)%string)
     <> Ok (Some (decimal "1" "0", Str.digits_value long_digits, "dirty")).
Proof.
  assert (H : parse_time (Some ("1.0+" ++ long_digits)%string) = Ok None).
  { apply (parse_time_too_many_cones "1" "0" eq_refl eq_refl long_digits
             long_digits_are_digits).
    rewrite long_digits_length. unfold lt. apply le_n. }
  split; [exact long_digits_are_digits|]. split; [exact long_digits_length|].
  split; [exact H|]. rewrite H. discriminate.
Qed.

(** The rational [decimal ip fp] is [ip] followed by [fp] over a power of
    ten: the fraction [fp] has as many decimal places as digits. *)
Lemma digits_value_from_append (a b : string) (acc : Z) :
  Str.digits_value_from acc (a ++ b)%string
  = Str.digits_value_from (Str.digits_value_from acc a) b.
Proof. revert acc. induction a as [|c a IH]; intros acc; simpl; [reflexivity | apply IH]. Qed.

Lemma digits_value_from_shift (b : string) (acc : Z) :
  Str.digits_value_from acc b
  = acc * 10 ^ Z.of_nat (String.length b) + Str.digits_value b.
Proof.
  unfold Str.digits_value. revert acc. induction b as [|c b IH]; intros acc.
  - simpl. lia.
  - cbn [Str.digits_value_from String.length]. rewrite IH, (IH (10 * 0 + _)).
    rewrite Nat2Z.inj_succ, Z.pow_succ_r by lia. ring.
Qed.

Lemma decimal_value (ip fp : string) :
  is_digits fp = true ->
  Qnum (decimal ip fp)
  = Str.digits_value ip * 10 ^ Z.of_nat (String.length fp) + Str.digits_value fp
  /\ Z.pos (Qden (decimal ip fp)) = 10 ^ Z.of_nat (String.length fp).
Proof.
  intros Hfp. unfold decimal. cbn [Qnum Qden]. split.
  - unfold Str.digits_value at 1. rewrite digits_value_from_append.
    apply digits_value_from_shift.
  - rewrite Pos2Z.inj_pow. f_equal. destruct fp as [|c r]; [discriminate|].
    cbn [String.length]. lia.
Qed.

(** ** What parse_time returns in general *)

Lemma parse_time_returns (raw_value : option string) :
  exists r, parse_time raw_value = Ok r.
Proof.
  unfold parse_time, try_except.
  destruct (parse_time_body raw_value) as [r | e]; eauto.
Qed.

Lemma penalty_group_nonempty (s p : string) :
  ReTime.penalty_group s = Some p -> Str.is_empty p = false.
Proof.
  destruct s as [|c r]; simpl; [discriminate|].
  destruct (Str.is_newline c); [discriminate|].
  destruct (Str.all Str.isspace r); [now intros [= <-]|].
  destruct (ReTime.penalty_group r); simpl; [now intros [= <-] | discriminate].
Qed.

(** A captured penalty group is never the empty string. *)
Lemma rmatch_penalty_nonempty (s raw p : string) :
  ReTime.rmatch s = Some (raw, Some p) -> Str.is_empty p = false.
Proof.
  unfold ReTime.rmatch.
  destruct (Str.span Str.isdecimal (Str.lstrip_with Str.isspace s)) as [ip r1].
  destruct (Str.is_empty ip); [discriminate|].
  destruct r1 as [|c r2]; [discriminate|].
  destruct c as [[] [] [] [] [] [] [] []]; try discriminate.
  destruct (Str.span Str.isdecimal r2) as [fp r3].
  destruct (Str.is_empty fp); [discriminate|].
  destruct r3 as [|c r4];
    [destruct (Str.all Str.isspace ""); discriminate|].
  destruct c as [[] [] [] [] [] [] [] []];
    try (destruct (Str.all Str.isspace (String _ r4)); discriminate).
  destruct (ReTime.penalty_group r4) as [q|] eqn:Hq.
  - intros [= _ <-]. eapply penalty_group_nonempty; eassumption.
  - destruct (Str.all Str.isspace (String _ r4)); discriminate.
Qed.

Lemma parse_time_no_match (s : string) :
  ReTime.rmatch s = None -> parse_time (Some s) = Ok None.
Proof. intros H. unfold parse_time, parse_time_body. now rewrite H. Qed.

Lemma parse_time_bad_cones (s raw p : string) :
  ReTime.rmatch s = Some (raw, Some p) ->
  is_override (Some p) = false ->
  Str.int p = None ->
  parse_time (Some s) = Ok None.
Proof.
  intros Hm Ho Hi. unfold parse_time, parse_time_body. rewrite Hm.
  destruct (Str.float raw); run_monad; [|reflexivity].
  rewrite Ho, Hi, (rmatch_penalty_nonempty _ _ _ Hm). reflexivity.
Qed.

(** C4. [parse_time] returns [None] on [None], on the empty string, on every
    string the time grammar rejects and on every string whose cone suffix
    is not an integer literal; and whatever its argument, it returns and
    raises nothing. *)
Theorem parse_time_null (s raw p : string) :
  parse_time None = Ok None
  /\ parse_time (Some "") = Ok None
  /\ (ReTime.rmatch s = None -> parse_time (Some s) = Ok None)
  /\ (ReTime.rmatch s = Some (raw, Some p) ->
       is_override (Some p) = false -> Str.int p = None ->
       parse_time (Some s) = Ok None)
  /\ (forall raw_value, exists r, parse_time raw_value = Ok r).
Proof.
  split; [reflexivity|]. split; [reflexivity|]. split; [|split].
  - apply parse_time_no_match.
  - apply parse_time_bad_cones.
  - apply parse_time_returns.
Qed.

Lemma parse_time_null_witness :
  parse_time (Some "4x.5") = Ok None /\ parse_time (Some "45.123+1x") = Ok None.
Proof.
  split.
  - exact (proj1 (proj2 (proj2 (parse_time_null "4x.5" "" ""))) eq_refl).
  - exact (proj1 (proj2 (proj2 (proj2 (parse_time_null "45.123+1x" "45.123" "1x"))))
             eq_refl eq_refl eq_refl).
Defined.

Lemma float_nonneg (s : string) (t : Q) : Str.float s = Some t -> (0 <= t)%Q.
Proof.
  unfold Str.float. destruct (Str.span Str.isdecimal s) as [ip r] eqn:Hspan.
  destruct r as [|c fp]; [discriminate|].
  destruct c as [[] [] [] [] [] [] [] []]; try discriminate.
  destruct (Str.is_empty ip || Str.is_empty fp || negb (Str.all Str.isdecimal fp)) eqn:Hc;
    [discriminate|].
  intros [= <-]. apply orb_false_iff in Hc as [_ Hfp]. apply negb_false_iff in Hfp.
  unfold Qle. simpl. rewrite Z.mul_1_r. unfold Str.digits_value.
  apply digits_value_from_nonneg; [|lia].
  rewrite all_append, (span_all _ _ _ _ Hspan), Hfp. reflexivity.
Qed.

Lemma is_override_In (p : string) : is_override (Some p) = true -> In p override_statuses.
Proof.
  unfold is_override. intros H. apply existsb_exists in H as (x & Hx & E).
  apply String.eqb_eq in E. now subst.
Qed.

(** C5 (as amended). Every run [parse_time] returns has a non-negative time,
    one of the six statuses, a non-zero cone count only with the status
    dirty and a zero cone count with each of dnf, dsq, off and out; the cone
    count itself is whatever integer the suffix denotes, of either sign. *)
Theorem parse_time_invariant (raw_value : option string) (r : RunResult) :
  parse_time raw_value = Ok (Some r) -> RunResult_invariant_signed r.
Proof.
  unfold parse_time, parse_time_body.
  destruct raw_value as [s|]; [|discriminate].
  destruct (ReTime.rmatch s) as [[raw penalty]|]; [|discriminate].
  destruct (Str.float raw) as [t|] eqn:Hf; run_monad; [|discriminate].
  pose proof (float_nonneg _ _ Hf) as Ht.
  assert (Hclean : RunResult_invariant_signed (t, 0, "clean")).
  { repeat split; [exact Ht | simpl; tauto | congruence]. }
  destruct penalty as [p|]; [|now intros [= <-]].
  destruct (is_override (Some p)) eqn:Ho.
  - intros [= <-]. apply is_override_In in Ho.
    repeat split; [exact Ht | | congruence].
    simpl in Ho |- *. tauto.
  - destruct (Str.is_empty p); run_monad; [now intros [= <-]|].
    destruct (Str.int p) as [n|]; run_monad; [|discriminate].
    intros [= <-]. repeat split; [exact Ht | simpl; tauto |].
    simpl. intros [H | [H | [H | [H | []]]]]; discriminate H.
Qed.

Lemma parse_time_invariant_witness :
  RunResult_invariant_signed (decimal "45" "123", 2, "dirty").
Proof. exact (parse_time_invariant (Some "45.123+2") _ eq_refl). Defined.

(** A cone suffix with a minus sign is an integer literal for [int]. *)
Lemma parse_time_negative_cones :
  parse_time (Some "1.0+-3") = Ok (Some (decimal "1" "0", -3, "dirty"))
  /\ ~ RunResult_invariant (decimal "1" "0", -3, "dirty").
Proof.
  split; [reflexivity|]. unfold RunResult_invariant. intros (_ & H & _). lia.
Qed.

(** ** Substrings and the layout check *)

Lemma startswith_spec (p s : string) :
  Str.startswith p s = true <-> exists b, s = (p ++ b)%string.
Proof.
  revert s. induction p as [|c p IH]; intros s; simpl.
  - split; [intros _; now exists s | reflexivity].
  - destruct s as [|d s].
    + split; [discriminate | intros [b Hb]; discriminate Hb].
    + rewrite andb_true_iff, Ascii.eqb_eq, IH. split.
      * intros [-> [b ->]]. now exists b.
      * intros [b [= -> ->]]. eauto.
Qed.

Lemma contains_spec (sub s : string) :
  Str.contains sub s = true <-> substring sub s.
Proof.
  unfold substring. induction s as [|c s IH]; simpl.
  - rewrite orb_false_r, startswith_spec. split.
    + intros [b Hb]. now exists "", b.
    + intros (a & b & H). destruct a; [now exists b | discriminate H].
  - rewrite orb_true_iff, startswith_spec, IH. split.
    + intros [[b Hb] | (a & b & ->)].
      * now exists "", b.
      * now exists (String c a), b.
    + intros (a & b & H). destruct a as [|d a].
      * left. now exists b.
      * right. injection H as _ ->. now exists a, b.
Qed.

Lemma is_multirow_spec (headers : list string) :
  is_multirow headers = true <->
  exists h, In h headers /\ Str.contains "Run" h = true /\ Str.contains ".." h = true.
Proof.
  induction headers as [|h rest IH]; simpl.
  - split; [discriminate | intros (h & [] & _)].
  - destruct (Str.contains "Run" h) eqn:Hrun; simpl.
    + destruct (Str.contains ".." h) eqn:Hdots.
      * split; [intros _; exists h; auto | reflexivity].
      * rewrite IH. split.
        -- intros (h' & Hin & H). exists h'; auto.
        -- intros (h' & [-> | Hin] & H1 & H2); [congruence | exists h'; auto].
    + rewrite IH. split.
      * intros (h' & Hin & H). exists h'; auto.
      * intros (h' & [-> | Hin] & H1 & H2); [congruence | exists h'; auto].
Qed.

(** C7. The layout is multi-row exactly when some header name contains both
    [Run] and two consecutive dots; nothing but the header names enters the
    decision.  The headers [Run 1..], [Run 2..] select the multi-row layout
    and the headers [Run 1], [Run 2] the single-row one. *)
Theorem layout_detection (headers : list string) :
  (is_multirow headers = true <->
     exists h, In h headers /\ substring "Run" h /\ substring ".." h)
  /\ is_multirow ["Run 1.."; "Run 2.."] = true
  /\ is_multirow ["Run 1"; "Run 2"] = false.
Proof.
  split; [|split; reflexivity].
  rewrite is_multirow_spec. split.
  - intros (h & Hin & H1 & H2). exists h. now rewrite <- !contains_spec.
  - intros (h & Hin & H1 & H2). exists h. now rewrite !contains_spec.
Qed.

(** ** Loops that raise *)

Section ForEach.

Context {S X : Type} (body : S -> X -> outcome S).

Lemma for_each_app (xs ys : list X) (st : S) :
  for_each body st (xs ++ ys) = do st' <- for_each body st xs; for_each body st' ys.
Proof.
  revert st. induction xs as [|x xs IH]; intros st; simpl; [reflexivity|].
  destruct (body st x) as [st'|e]; simpl; [apply IH | reflexivity].
Qed.

(** An element on which the body always raises makes the loop raise. *)
Lemma for_each_raises (x : X) (xs : list X) :
  (forall st, exists e, body st x = Raise e) ->
  In x xs ->
  forall st, exists e, for_each body st xs = Raise e.
Proof.
  intros Hx. induction xs as [|y xs IH]; intros Hin st; [destruct Hin|].
  simpl. destruct Hin as [-> | Hin].
  - destruct (Hx st) as [e ->]. simpl. eauto.
  - destruct (body st y) as [st'|e]; simpl; eauto.
Qed.

End ForEach.

Lemma zip_In {A B : Type} (l : list A) (k : list B) (j : nat) (a : A) (b : B) :
  l !! j = Some a -> k !! j = Some b -> In (a, b) (zip l k).
Proof.
  revert k j. induction l as [|x l IH]; intros k j Hl Hk; [discriminate|].
  destruct k as [|y k]; [discriminate|].
  destruct j as [|j]; simpl in *.
  - left. congruence.
  - right. eapply IH; eassumption.
Qed.

(** ** From a cell to the document *)

Lemma row_step_raises (headers : list string) (multirow : bool) (row : Tag) :
  (exists e, row_cells headers (tds row) = Raise e) ->
  forall st, exists e, row_step headers multirow st row = Raise e.
Proof. intros [e He] st. unfold row_step. rewrite He. simpl. eauto. Qed.

Lemma row_cells_raises (headers : list string) (row_data : list Td) (j : nat) (h : string) (td : Td) :
  headers !! j = Some h -> row_data !! j = Some td ->
  (forall acc, exists e, cell_step acc (h, td) = Raise e) ->
  exists e, row_cells headers row_data = Raise e.
Proof.
  intros Hh Htd Hraise. unfold row_cells.
  eapply for_each_raises; [exact Hraise|]. eapply zip_In; eassumption.
Qed.

Lemma parse_unfold (s : Document) (headers : list string) (result_rows : list Tag) :
  header_and_rows s = Ok (headers, result_rows) ->
  parse_axware_live_results s = parse_rows headers result_rows.
Proof. intros H. unfold parse_axware_live_results. now rewrite H. Qed.

(** A cell that always raises aborts the parse of the document. *)
Lemma cell_aborts_document (s : Document) (headers : list string) (result_rows : list Tag)
    (row : Tag) (j : nat) (h : string) (td : Td) :
  header_and_rows s = Ok (headers, result_rows) ->
  In row result_rows ->
  headers !! j = Some h -> tds row !! j = Some td ->
  (forall acc, exists e, cell_step acc (h, td) = Raise e) ->
  exists e, parse_axware_live_results s = Raise e.
Proof.
  intros Hs Hrow Hh Htd Hraise. rewrite (parse_unfold _ _ _ Hs). unfold parse_rows.
  destruct (for_each_raises (row_step headers (is_multirow headers)) row result_rows) with (st := initial)
    as [e He]; [|assumption|].
  - apply row_step_raises. eapply row_cells_raises; eassumption.
  - rewrite He. simpl. eauto.
Qed.

(** ** The run pattern *)

Lemma num_group_digits (ds rest : string) :
  is_digits ds = true -> ReRun.tail_matches rest = true ->
  ReRun.num_group ds rest = Some ds.
Proof.
  intros Hds Hrest. induction ds as [|d ds IH]; [discriminate|].
  cbn [ReRun.num_group]. destruct ds as [|d' ds'].
  - cbn [ReRun.num_group String.append]. now rewrite Hrest.
  - rewrite IH; [reflexivity|].
    apply digits_all in Hds. cbn [Str.all] in Hds.
    apply andb_true_iff in Hds as [_ Hds]. exact Hds.
Qed.

Lemma rmatch_run (n rest : string) :
  is_digits n = true -> stops Str.isdecimal rest = true ->
  ReRun.rmatch (String "R" (String "u" (String "n" (String " " (n ++ rest)%string))))
  = ReRun.num_group n rest.
Proof.
  intros Hn Hrest. destruct (digits_head n Hn) as (c & r & E & Hc).
  unfold ReRun.rmatch.
  change (Str.lstrip_with Str.isspace
            (String "R" (String "u" (String "n" (String " " (n ++ rest)%string)))))
    with (String "R" (String "u" (String "n" (String " " (n ++ rest)%string)))).
  cbv iota.
  change (Str.lstrip_with Str.isspace (String " " (n ++ rest)%string))
    with (Str.lstrip_with Str.isspace (n ++ rest)%string).
  rewrite lstrip_none
    by (rewrite E; cbn [String.append stops]; now rewrite (digit_not_space c Hc)).
  rewrite span_append by (auto using digits_all). reflexivity.
Qed.

(** Headers [Run n] and [Run n..] match the run pattern, with [n] as the
    number; so does [Run 1xy], the dots of the pattern being wildcards. *)
Lemma run_pattern_accepts (n : string) :
  is_digits n = true ->
  ReRun.rmatch ("Run " ++ n) = Some n
  /\ ReRun.rmatch ("Run " ++ n ++ "..") = Some n
  /\ ReRun.rmatch "Run 1xy" = Some "1".
Proof.
  intros Hn. split; [|split; [|reflexivity]].
  - rewrite <- (append_empty_r n) at 1.
    change ("Run " ++ n ++ "")%string
      with (String "R" (String "u" (String "n" (String " " (n ++ "")%string)))).
    rewrite rmatch_run by auto. now apply num_group_digits.
  - change ("Run " ++ n ++ "..")%string
      with (String "R" (String "u" (String "n" (String " " (n ++ "..")%string)))).
    rewrite rmatch_run by auto. now apply num_group_digits.
Qed.

(** ** The position column *)

Lemma pos_cell_value (text : string) :
  cell_value "Pos" text =
    match Str.int (Str.remove_char "T" text) with
    | Some n => Ok (VInt n)
    | None => Raise ValueError
    end.
Proof. reflexivity. Qed.

Lemma pos_cell_step (acc : dict * list value) (td : Td) :
  cell_step acc ("Pos", td) =
    match Str.int (Str.remove_char "T" (Str.strip (td_text td))) with
    | Some n => Ok (<["Pos" := VInt n]> (fst acc), snd acc)
    | None => Raise ValueError
    end.
Proof.
  destruct acc as [entry runs]. unfold cell_step. rewrite pos_cell_value.
  now destruct (Str.int _).
Qed.

(** C6. Under the header [Pos] the value of a cell is the integer read from
    its stripped text with every [T] removed ([3] from "3", [4] from "4T"),
    stored under the key [Pos]; when what remains is not an integer literal
    the cell raises [ValueError], and a document with such a cell in one of
    its result rows is not parsed: [parse_axware_live_results] raises. *)
Theorem pos_column (s : Document) (headers : list string) (result_rows : list Tag)
    (row : Tag) (j : nat) (td : Td) :
  (cell_value "Pos" "3" = Ok (VInt 3)
   /\ cell_value "Pos" "4T" = Ok (VInt 4)
   /\ cell_value "Pos" "abc" = Raise ValueError)
  /\ (forall (entry : dict) (runs : list value) (c : Td) (n : Z),
        Str.int (Str.remove_char "T" (Str.strip (td_text c))) = Some n ->
        cell_step (entry, runs) ("Pos", c) = Ok (<["Pos" := VInt n]> entry, runs))
  /\ (Str.int (Str.remove_char "T" (Str.strip (td_text td))) = None ->
      (forall acc, cell_step acc ("Pos", td) = Raise ValueError)
      /\ (header_and_rows s = Ok (headers, result_rows) ->
          In row result_rows ->
          headers !! j = Some "Pos" -> tds row !! j = Some td ->
          exists e, parse_axware_live_results s = Raise e)).
Proof.
  split; [repeat split|]. split.
  - intros entry runs c n Hn. rewrite pos_cell_step, Hn. reflexivity.
  - intros Hbad.
    assert (Hcell : forall acc, cell_step acc ("Pos", td) = Raise ValueError).
    { intros acc. rewrite pos_cell_step, Hbad. reflexivity. }
    split; [exact Hcell|].
    intros Hs Hrow Hh Htd. eapply cell_aborts_document; eauto.
Qed.

(** ** Run columns whose header the run pattern rejects *)

Lemma run_cell_value (h text : string) :
  Str.contains "Run" h = true ->
  cell_value h text = do v <- parse_time (Some text); Ok (of_run v).
Proof. intros H. unfold cell_value. now rewrite H. Qed.

(** C9 (as amended). Let a header name contain [Run] without matching the
    run pattern [_re_run] (white space, [Run], white space, digits,
    optionally white space and any two characters, white space), as
    "Best Run" does.  A cell of that column that has a [valign] attribute
    and a text [parse_time] accepts raises [AttributeError]; a document with
    such a cell in one of its result rows is not parsed, and the run is
    neither recorded nor skipped. *)
Theorem unmatched_run_header (s : Document) (headers : list string) (result_rows : list Tag)
    (row : Tag) (j : nat) (h : string) (td : Td) (r : RunResult) :
  Str.contains "Run" h = true ->
  ReRun.rmatch h = None ->
  td_valign td = true ->
  parse_time (Some (Str.strip (td_text td))) = Ok (Some r) ->
  (forall acc, cell_step acc (h, td) = Raise AttributeError)
  /\ (header_and_rows s = Ok (headers, result_rows) ->
      In row result_rows ->
      headers !! j = Some h -> tds row !! j = Some td ->
      exists e, parse_axware_live_results s = Raise e)
  /\ Str.contains "Run" "Best Run" = true /\ ReRun.rmatch "Best Run" = None.
Proof.
  intros Hrun Hre Hv Hr.
  assert (Hcell : forall acc, cell_step acc (h, td) = Raise AttributeError).
  { intros [entry runs]. unfold cell_step.
    rewrite (run_cell_value _ _ Hrun), Hr, Hrun, Hv, Hre.
    destruct r as [[t n] st]. reflexivity. }
  split; [exact Hcell|]. split; [|split; reflexivity].
  intros Hs Hrow Hh Htd. eapply cell_aborts_document; eauto.
Qed.

Lemma pos_column_witness :
  (forall acc, cell_step acc ("Pos", Samples.cell "abc") = Raise ValueError)
  /\ exists e, parse_axware_live_results Samples.bad_pos = Raise e.
Proof.
  destruct (pos_column Samples.bad_pos
              ["Pos"; "Driver"; "Total"; "Run 1"]
              [Samples.row [Samples.cell "1"; Samples.cell "Ann"; Samples.cell "35.500"; Samples.run "35.500"];
               Samples.row [Samples.cell "abc"; Samples.cell "Bob"; Samples.cell "36.100"; Samples.run "36.100"]]
              (Samples.row [Samples.cell "abc"; Samples.cell "Bob"; Samples.cell "36.100"; Samples.run "36.100"])
              0%nat (Samples.cell "abc")) as (_ & _ & H).
  destruct (H eq_refl) as [Hcell Hdoc]. split; [exact Hcell|].
  apply Hdoc; [reflexivity | simpl; tauto | reflexivity | reflexivity].
Defined.

Lemma unmatched_run_header_witness :
  (forall acc, cell_step acc ("Best Run", Samples.run "35.500") = Raise AttributeError)
  /\ exists e, parse_axware_live_results Samples.best_run = Raise e.
Proof.
  destruct (unmatched_run_header Samples.best_run
              ["Pos"; "Driver"; "Best Run"; "Run 1"]
              [Samples.row [Samples.cell "1"; Samples.cell "Ann"; Samples.run "35.500"; Samples.run "35.500"]]
              (Samples.row [Samples.cell "1"; Samples.cell "Ann"; Samples.run "35.500"; Samples.run "35.500"])
              2%nat "Best Run" (Samples.run "35.500") (decimal "35" "500", 0, "clean")
              eq_refl eq_refl eq_refl eq_refl) as (Hcell & Hdoc & _).
  split; [exact Hcell|].
  apply Hdoc; [reflexivity | simpl; tauto | reflexivity | reflexivity].
Defined.

(** The header [Run 1xy] contains [Run] and has not the shape [Run],
    digits, optionally two dots; yet [_re_run] matches it, its last two
    characters standing for the wildcards.  A real run in that column is
    recorded and the document is parsed. *)
Lemma wildcard_run_header_recorded :
  Str.contains "Run" "Run 1xy" = true
  /\ run_shape "Run 1xy" = false
  /\ run_shape "Run 1" = true /\ run_shape "Run 12.." = true
  /\ td_valign (Samples.run "35.500") = true
  /\ parse_time (Some (Str.strip (td_text (Samples.run "35.500"))))
     = Ok (Some (decimal "35" "500", 0, "clean"))
  /\ cell_step (∅, []) ("Run 1xy", Samples.run "35.500")
     = Ok (∅, [VTuple (decimal "35" "500") 0 "clean"])
  /\ (exists entry : dict,
        parse_axware_live_results Samples.wildcard_run = Ok [entry]
        /\ entry !! "Runs" = Some (VList [VTuple (decimal "35" "500") 0 "clean";
                                          VTuple (decimal "36" "020") 1 "dirty"]))
  /\ ~ (exists e, parse_axware_live_results Samples.wildcard_run = Raise e).
Proof.
  do 6 (split; [reflexivity|]). split; [|split].
  - reflexivity.
  - eexists. split; vm_compute; reflexivity.
  - intros [e He].
    assert (Hok : returns (parse_axware_live_results Samples.wildcard_run) = true)
      by (vm_compute; reflexivity).
    rewrite He in Hok. discriminate Hok.
Qed.

(** ** The runs of a row *)

Lemma cell_step_runs (entry entry' : dict) (runs runs' : list value) (hc : string * Td) :
  cell_step (entry, runs) hc = Ok (entry', runs') ->
  runs' = runs ++ option_list (real_run hc).
Proof.
  destruct hc as [h td]. unfold cell_step, real_run.
  destruct (Str.contains "Run" h) eqn:Hrun.
  - rewrite (run_cell_value _ _ Hrun).
    destruct (parse_time_returns (Some (Str.strip (td_text td)))) as [r ->].
    run_monad. simpl andb.
    destruct (td_valign td); simpl.
    + destruct r as [[[t n] st]|]; simpl.
      * destruct (ReRun.rmatch h) as [num|]; [|discriminate].
        destruct (Str.int num); [|discriminate]. intros H. now inversion H.
      * intros H. inversion H. now rewrite app_nil_r.
    + intros H. inversion H. now rewrite app_nil_r.
  - destruct (cell_value h (Str.strip (td_text td))); simpl; [|discriminate].
    intros H. inversion H. now rewrite app_nil_r.
Qed.

Lemma cells_runs (l : list (string * Td)) (entry entry' : dict) (runs runs' : list value) :
  for_each cell_step (entry, runs) l = Ok (entry', runs') ->
  runs' = runs ++ omap real_run l.
Proof.
  revert entry runs. induction l as [|hc l IH]; intros entry runs; cbn [for_each omap list_omap].
  - intros H. inversion H. now rewrite app_nil_r.
  - destruct (cell_step (entry, runs) hc) as [[e1 r1]|] eqn:Hstep; run_monad; [|discriminate].
    intros H. apply IH in H. apply cell_step_runs in Hstep. subst.
    rewrite <- app_assoc. f_equal. now destruct (real_run hc).
Qed.

(** The runs a row collects are its real run cells, left to right. *)
Lemma row_cells_runs (headers : list string) (row_data : list Td) (entry : dict) (runs : list value) :
  row_cells headers row_data = Ok (entry, runs) ->
  runs = valid_run_cells headers row_data.
Proof. intros H. apply cells_runs in H. exact H. Qed.

(** ** Multi-row layout *)

Lemma dict_update_empty (e : dict) : dict_update ∅ e = e.
Proof. unfold dict_update. apply (right_id_L ∅ (∪)). Qed.

Lemma is_empty_spec (t : string) : Str.is_empty t = true <-> t = "".
Proof. destruct t; simpl; split; congruence. Qed.

Lemma extend_runs_some (l runs : list value) :
  extend_runs (Some l) runs = Ok (Some (l ++ runs)).
Proof. destruct runs; simpl; [now rewrite app_nil_r | reflexivity]. Qed.

(** C2. In the multi-row layout a row whose first cell has text, followed
    by a row whose first cell has none, gives one entry: the fields of the
    first row, [Diff.] set to the second row's [Total] unless the first row
    already has a [Diff.], and [Runs] the real run cells of the first row
    followed by those of the second, left to right.  With three such cells
    in the first row and two in the second, [Runs] has five elements. *)
Theorem multirow_stitching (s : Document) (headers : list string)
    (primary continuation : Tag) (first1 first2 : Td) (rest1 rest2 : list Td)
    (e1 e2 : dict) (runs1 runs2 : list value) (total : value) :
  header_and_rows s = Ok (headers, [primary; continuation]) ->
  is_multirow headers = true ->
  tds primary = first1 :: rest1 -> td_text first1 <> "" ->
  tds continuation = first2 :: rest2 -> td_text first2 = "" ->
  row_cells headers (tds primary) = Ok (e1, runs1) ->
  row_cells headers (tds continuation) = Ok (e2, runs2) ->
  e2 !! "Total" = Some total ->
  let runs := valid_run_cells headers (tds primary)
              ++ valid_run_cells headers (tds continuation) in
  parse_axware_live_results s
  = Ok [ <["Runs" := VList runs]>
           (match e1 !! "Diff." with
            | Some _ => e1
            | None => <["Diff." := total]> e1
            end) ]
  /\ length runs = (length (valid_run_cells headers (tds primary))
                    + length (valid_run_cells headers (tds continuation)))%nat.
Proof.
  intros Hs Hm Hp Hfirst1 Hc Hfirst2 Hr1 Hr2 Htotal runs.
  split; [|apply length_app].
  rewrite (parse_unfold _ _ _ Hs). unfold parse_rows. rewrite Hm.
  assert (Hne : Str.is_empty (td_text first1) = false).
  { destruct (Str.is_empty (td_text first1)) eqn:E; [|reflexivity].
    apply is_empty_spec in E. contradiction. }
  unfold for_each, row_step. rewrite Hr1, Hp. run_monad. rewrite Hne.
  cbv beta iota delta [current_entry current_runs results flush_previous initial].
  rewrite Hr2, Hc, Hfirst2, dict_update_empty. simpl Str.is_empty. run_monad.
  rewrite extend_runs_some.
  rewrite (row_cells_runs _ _ _ _ Hr1), (row_cells_runs _ _ _ _ Hr2).
  unfold take_diff. destruct (e1 !! "Diff."); [reflexivity|].
  rewrite Htotal. reflexivity.
Qed.

Lemma multirow_stitching_witness :
  exists entry : dict,
    parse_axware_live_results Samples.multi = Ok [entry]
    /\ entry !! "Diff." = Some (VStr "-2.345")
    /\ entry !! "Runs"
       = Some (VList [VTuple (decimal "35" "500") 0 "clean";
                      VTuple (decimal "36" "020") 1 "dirty";
                      VTuple (decimal "35" "900") 0 "clean";
                      VTuple (decimal "35" "700") 0 "clean";
                      VTuple (decimal "35" "800") 2 "dirty"]).
Proof.
  eexists. split.
  - refine (proj1 (multirow_stitching Samples.multi _ _ _ _ _ _ _ _ _ _ _ (VStr "-2.345")
                     eq_refl eq_refl eq_refl _ eq_refl eq_refl eq_refl eq_refl _)).
    + discriminate.
    + vm_compute. reflexivity.
  - split; vm_compute; reflexivity.
Defined.

(** C8 (as amended). In the multi-row layout, a row whose first cell has no
    text, whose fields have no key [Total], and which is met while the open
    entry has no [Diff.] makes [parse_axware_live_results] raise [KeyError]:
    no result is returned. *)
Theorem missing_total_raises (s : Document) (headers : list string)
    (before after : list Tag) (row : Tag) (st : State) (ce : dict)
    (first : Td) (cells : list Td) (entry : dict) (runs : list value) :
  header_and_rows s = Ok (headers, before ++ row :: after) ->
  is_multirow headers = true ->
  for_each (row_step headers true) initial before = Ok st ->
  current_entry st = Some ce ->
  ce !! "Diff." = None ->
  tds row = first :: cells -> td_text first = "" ->
  row_cells headers (tds row) = Ok (entry, runs) ->
  entry !! "Total" = None ->
  parse_axware_live_results s = Raise KeyError.
Proof.
  intros Hs Hm Hbefore Hce Hdiff Hrow Hfirst Hcells Htotal.
  rewrite (parse_unfold _ _ _ Hs). unfold parse_rows. rewrite Hm.
  rewrite for_each_app, Hbefore. run_monad. cbn [for_each].
  unfold row_step at 1. rewrite Hcells, Hrow, Hfirst, Hce. simpl Str.is_empty.
  run_monad. unfold take_diff. rewrite Hdiff, Htotal. reflexivity.
Qed.

Lemma missing_total_raises_witness :
  parse_axware_live_results Samples.relabelled = Raise KeyError.
Proof.
  refine (missing_total_raises Samples.relabelled _ [_] [] _ _ _ _ _ _ _
            eq_refl eq_refl eq_refl eq_refl _ eq_refl eq_refl eq_refl _);
    vm_compute; reflexivity.
Defined.

(** The relabelled sample is in the multi-row layout, its second row has no
    [Total] and the entry its first row opens has no [Diff.]; the parse does
    not complete. *)
Lemma relabelled_total_not_silent :
  is_multirow ["Class"; "Driver"; "Time"; "Run 1.."; "Run 2.."; "Run 3.."] = true
  /\ (exists (e1 e2 : dict) (r1 r2 : list value),
        row_cells ["Class"; "Driver"; "Time"; "Run 1.."; "Run 2.."; "Run 3.."]
          [Samples.cell "1"; Samples.cell "Ann"; Samples.cell "35.500";
           Samples.run "35.500"; Samples.run "36.020+1"; Samples.run "35.900"] = Ok (e1, r1)
        /\ row_cells ["Class"; "Driver"; "Time"; "Run 1.."; "Run 2.."; "Run 3.."]
          [Samples.cell ""; Samples.cell ""; Samples.cell "-2.345";
           Samples.run "35.700"; Samples.run "35.800+2"; Samples.cell ""] = Ok (e2, r2)
        /\ e1 !! "Diff." = None /\ e2 !! "Total" = None)
  /\ parse_axware_live_results Samples.relabelled = Raise KeyError
  /\ ~ (exists res, parse_axware_live_results Samples.relabelled = Ok res).
Proof.
  split; [reflexivity|]. split.
  - do 4 eexists. split; [reflexivity|]. split; [reflexivity|].
    split; vm_compute; reflexivity.
  - split; [vm_compute; reflexivity|]. intros [res H]. vm_compute in H. discriminate H.
Qed.

(** C10. In the multi-row layout the final flush has no guard: with no open
    entry it raises [TypeError].  So a document without result rows raises
    [TypeError]; a document whose first result row has a first cell without
    text raises, [TypeError] when the cells of that row were read without
    an exception; and a parse that returns has a first result row whose
    first cell has text. *)
Theorem multirow_needs_open_entry (s : Document) (headers : list string) (result_rows : list Tag) :
  header_and_rows s = Ok (headers, result_rows) ->
  is_multirow headers = true ->
  (forall st, current_entry st = None -> finish true st = Raise TypeError)
  /\ (result_rows = [] -> parse_axware_live_results s = Raise TypeError)
  /\ (forall row rest first cells,
        result_rows = row :: rest -> tds row = first :: cells -> td_text first = "" ->
        parse_axware_live_results s
        = match row_cells headers (tds row) with
          | Ok _ => Raise TypeError
          | Raise e => Raise e
          end)
  /\ (forall res, parse_axware_live_results s = Ok res ->
        exists row rest first cells,
          result_rows = row :: rest /\ tds row = first :: cells /\ td_text first <> "").
Proof.
  intros Hs Hm. rewrite (parse_unfold _ _ _ Hs). unfold parse_rows. rewrite Hm.
  assert (Hcont : forall row rest first cells,
    result_rows = row :: rest -> tds row = first :: cells -> td_text first = "" ->
    (do st <- for_each (row_step headers true) initial result_rows; finish true st)
    = match row_cells headers (tds row) with
      | Ok _ => Raise TypeError
      | Raise e => Raise e
      end).
  { intros row rest first cells -> Hrow Hfirst. cbn [for_each].
    unfold row_step at 1. destruct (row_cells headers (tds row)) as [[entry runs]|e];
      run_monad; [|reflexivity].
    rewrite Hrow, Hfirst. reflexivity. }
  split; [|split; [|split]].
  - intros st Hst. unfold finish. now rewrite Hst.
  - intros ->. reflexivity.
  - exact Hcont.
  - intros res Hres. destruct result_rows as [|row rest]; [discriminate Hres|].
    destruct (tds row) as [|first cells] eqn:Hrow.
    + cbn [for_each] in Hres. unfold row_step at 1 in Hres. rewrite Hrow in Hres.
      unfold row_cells in Hres. rewrite zip_with_nil_r in Hres. discriminate Hres.
    + exists row, rest, first, cells. split; [reflexivity|]. split; [exact Hrow|].
      intros Hfirst. rewrite (Hcont row rest first cells eq_refl Hrow Hfirst) in Hres.
      destruct (row_cells headers (tds row)); discriminate Hres.
Qed.

Lemma multirow_needs_open_entry_witness :
  parse_axware_live_results Samples.no_rows = Raise TypeError
  /\ parse_axware_live_results Samples.orphan = Raise TypeError.
Proof.
  split.
  - exact (proj1 (proj2 (multirow_needs_open_entry Samples.no_rows _ [] eq_refl eq_refl)) eq_refl).
  - exact (proj1 (proj2 (proj2 (multirow_needs_open_entry Samples.orphan _ [_] eq_refl eq_refl)))
             _ [] (Samples.cell "") _ eq_refl eq_refl eq_refl).
Defined.

(** ** Single-row layout *)

Lemma single_row_loop (headers : list string) (rows : list Tag) (st st' : State) :
  current_runs st = None ->
  for_each (row_step headers false) st rows = Ok st' ->
  exists added,
    results st' = results st ++ added
    /\ Forall2 (single_row_entry headers) added rows.
Proof.
  revert st. induction rows as [|row rows IH]; intros st Hnone; cbn [for_each].
  - intros [= <-]. exists []. split; [now rewrite app_nil_r | constructor].
  - unfold row_step at 1.
    destruct (row_cells headers (tds row)) as [[entry runs]|e] eqn:Hcells;
      run_monad; [|discriminate].
    rewrite Hnone. intros Hloop. apply IH in Hloop; [|reflexivity].
    cbn [results] in Hloop. destruct Hloop as (added & Hres & Hall).
    exists (<["Runs" := VNone]> entry :: added). split.
    + rewrite Hres, <- app_assoc. reflexivity.
    + constructor; [|exact Hall]. exists entry, runs.
      split; [exact Hcells|]. split; [eapply row_cells_runs; eassumption|].
      split; [reflexivity | apply lookup_insert_eq].
Qed.

(** C1, as the code has it.  In the single-row layout a parse that returns
    gives one entry per result row, in order, made of the row's fields; but
    the [Runs] of every entry is [None], whatever runs the row has: the
    loop stores the variable kept for the multi-row layout, which is never
    assigned here, instead of the runs it has just collected. *)
Theorem single_row_runs_none (s : Document) (headers : list string) (result_rows : list Tag)
    (res : list dict) :
  header_and_rows s = Ok (headers, result_rows) ->
  is_multirow headers = false ->
  parse_axware_live_results s = Ok res ->
  length res = length result_rows
  /\ Forall2 (single_row_entry headers) res result_rows.
Proof.
  intros Hs Hm. rewrite (parse_unfold _ _ _ Hs). unfold parse_rows. rewrite Hm.
  destruct (for_each (row_step headers false) initial result_rows) as [st|e] eqn:Hloop;
    run_monad; [|discriminate].
  apply single_row_loop in Hloop; [|reflexivity].
  destruct Hloop as (added & Hres & Hall). unfold finish. intros [= <-].
  rewrite Hres. cbn [results initial app].
  split; [eapply Forall2_length; eassumption | exact Hall].
Qed.

(** On the single-row sample both rows have two real run cells, and both
    entries come out with [Runs] set to [None]. *)
Lemma single_row_runs_none_witness :
  exists res : list dict,
    parse_axware_live_results Samples.single = Ok res
    /\ length res = 2%nat
    /\ Forall2 (single_row_entry ["Pos"; "Driver"; "Pax Time"; "Total"; "Run 1"; "Run 2"])
         res
         [Samples.row [Samples.cell "1"; Samples.cell "Ann"; Samples.cell "30.100";
                       Samples.cell "35.500"; Samples.run "35.500"; Samples.run "36.020+1"];
          Samples.row [Samples.cell "2T"; Samples.cell "Bob"; Samples.cell "31.000";
                       Samples.cell "36.100"; Samples.run "36.100"; Samples.run "40.000+dnf"]]
    /\ Forall (fun row => length (valid_run_cells
                  ["Pos"; "Driver"; "Pax Time"; "Total"; "Run 1"; "Run 2"] (tds row)) = 2%nat)
         [Samples.row [Samples.cell "1"; Samples.cell "Ann"; Samples.cell "30.100";
                       Samples.cell "35.500"; Samples.run "35.500"; Samples.run "36.020+1"];
          Samples.row [Samples.cell "2T"; Samples.cell "Bob"; Samples.cell "31.000";
                       Samples.cell "36.100"; Samples.run "36.100"; Samples.run "40.000+dnf"]].
Proof.
  destruct (parse_axware_live_results Samples.single) as [res|e] eqn:Hres.
  - exists res. split; [reflexivity|].
    destruct (single_row_runs_none Samples.single _ _ res eq_refl eq_refl Hres) as [Hlen Hall].
    split; [exact Hlen|]. split; [exact Hall|].
    constructor; [vm_compute; reflexivity|]. constructor; [vm_compute; reflexivity|].
    constructor.
  - assert (Hok : returns (parse_axware_live_results Samples.single) = true)
      by (vm_compute; reflexivity).
    rewrite Hres in Hok. discriminate Hok.
Defined.

(** * Further properties *)

(** ** The time grammar: whitespace, rejected shapes and an inversion *)

Section MoreStringFacts.

Ltac by_char c :=
  destruct c as [[] [] [] [] [] [] [] []]; vm_compute;
  repeat split; intros; congruence.

Lemma space_not_digit c : Str.isspace c = true -> Str.isdecimal c = false.
Proof. by_char c. Qed.

Lemma space_not_plus c : Str.isspace c = true -> c <> "+"%char.
Proof. intros H ->. vm_compute in H. discriminate H. Qed.

Lemma digit_not_T c : Str.isdecimal c = true -> Ascii.eqb "T" c = false.
Proof. by_char c. Qed.

Lemma lstrip_split p (s : string) :
  exists w, s = (w ++ Str.lstrip_with p s)%string /\ Str.all p w = true.
Proof.
  induction s as [|c s (w & Hs & Hw)]; [now exists ""|]. simpl.
  destruct (p c) eqn:Hc.
  - exists (String c w). simpl. rewrite Hc, Hw. split; [now f_equal | reflexivity].
  - now exists "".
Qed.

Lemma lstrip_prefix p (w s : string) :
  Str.all p w = true -> Str.lstrip_with p (w ++ s)%string = Str.lstrip_with p s.
Proof.
  induction w as [|c w IH]; [reflexivity|]. simpl.
  intros H. apply andb_true_iff in H as [Hc Hw]. rewrite Hc. auto.
Qed.

Lemma span_split p (s a b : string) :
  Str.span p s = (a, b) ->
  s = (a ++ b)%string /\ Str.all p a = true /\ stops p b = true.
Proof.
  revert a b. induction s as [|c s IH]; simpl; intros a b H.
  - inversion H. auto.
  - destruct (p c) eqn:Hc.
    + destruct (Str.span p s) as [a' b'] eqn:Hs. inversion H; subst.
      destruct (IH a' b eq_refl) as (-> & Ha & Hb). simpl. rewrite Hc. auto.
    + inversion H; subst. simpl. rewrite Hc. auto.
Qed.

Lemma penalty_group_split (s p : string) :
  ReTime.penalty_group s = Some p ->
  exists w, s = (p ++ w)%string /\ Str.all Str.isspace w = true /\ Str.is_empty p = false.
Proof.
  revert p. induction s as [|c r IH]; simpl; intros p; [discriminate|].
  destruct (Str.is_newline c); [discriminate|].
  destruct (Str.all Str.isspace r) eqn:Hr.
  - intros [= <-]. now exists r.
  - destruct (ReTime.penalty_group r) as [q|]; simpl; [|discriminate].
    intros [= <-]. destruct (IH q eq_refl) as (w & -> & Hw & _).
    now exists w.
Qed.

Lemma penalty_group_trailing (n w : string) :
  is_digits n = true -> Str.all Str.isspace w = true ->
  ReTime.penalty_group (n ++ w)%string = Some n.
Proof.
  intros Hn Hw. induction n as [|c r IH]; [discriminate|].
  pose proof (digits_all _ Hn) as Ha. cbn [Str.all] in Ha.
  apply andb_true_iff in Ha as [Hc Hr].
  cbn [String.append ReTime.penalty_group]. rewrite (digit_not_newline c Hc).
  destruct r as [|d r'].
  - cbn [String.append]. now rewrite Hw.
  - assert (Hd : is_digits (String d r') = true) by exact Hr.
    cbn [Str.all] in Hr. apply andb_true_iff in Hr as [Hd' _].
    cbn [String.append Str.all]. rewrite (digit_not_space d Hd'). cbn [andb].
    change (String d (r' ++ w)%string) with (String d r' ++ w)%string.
    now rewrite (IH Hd).
Qed.

Lemma all_space_stops (w : string) :
  Str.all Str.isspace w = true -> stops Str.isdecimal w = true.
Proof.
  destruct w as [|c w]; [reflexivity|]. simpl. intros H.
  apply andb_true_iff in H as [Hc _]. now rewrite (space_not_digit c Hc).
Qed.

Lemma remove_T_digits (n : string) :
  Str.all Str.isdecimal n = true -> Str.remove_char "T" n = n.
Proof.
  induction n as [|c n IH]; [reflexivity|]. cbn [Str.all Str.remove_char].
  intros H. apply andb_true_iff in H as [Hc Hn]. rewrite (digit_not_T c Hc).
  now rewrite IH.
Qed.

Lemma remove_char_append c (a b : string) :
  Str.remove_char c (a ++ b)%string = (Str.remove_char c a ++ Str.remove_char c b)%string.
Proof.
  induction a as [|d a IH]; [reflexivity|]. cbn [String.append Str.remove_char].
  destruct (Ascii.eqb c d); [exact IH | cbn [String.append]; now rewrite IH].
Qed.

End MoreStringFacts.

Lemma rmatch_leading_space (w s : string) :
  Str.all Str.isspace w = true -> ReTime.rmatch (w ++ s)%string = ReTime.rmatch s.
Proof. intros Hw. unfold ReTime.rmatch. now rewrite lstrip_prefix. Qed.

Lemma rmatch_trailing_space (ip fp w : string) :
  is_digits ip = true -> is_digits fp = true -> Str.all Str.isspace w = true ->
  ReTime.rmatch (number ip fp ++ w)%string = Some (number ip fp, None).
Proof.
  intros Hip Hfp Hw. rewrite rmatch_number by auto using all_space_stops.
  cbv zeta. rewrite Hw. destruct w as [|c w]; [reflexivity|].
  cbn [Str.all] in Hw. apply andb_true_iff in Hw as [Hc _].
  pose proof (space_not_plus c Hc) as Hplus.
  destruct c as [[] [] [] [] [] [] [] []]; try reflexivity. congruence.
Qed.

(** X1. White space around a time is ignored: with white space before and
    after, a number alone is a clean run, a number with a cone count of at
    most 4300 digits a dirty run with that count, and a number with an
    override token a run with that status. *)
Theorem parse_time_whitespace (w1 w2 ip fp : string) :
  Str.all Str.isspace w1 = true -> Str.all Str.isspace w2 = true ->
  is_digits ip = true -> is_digits fp = true ->
  parse_time (Some (w1 ++ number ip fp ++ w2)%string) = Ok (Some (decimal ip fp, 0, "clean"))
  /\ (forall n, is_digits n = true -> (String.length n <= 4300)%nat ->
        parse_time (Some (w1 ++ number ip fp ++ "+" ++ n ++ w2)%string)
        = Ok (Some (decimal ip fp, Str.digits_value n, "dirty")))
  /\ (forall st, In st override_statuses ->
        parse_time (Some (w1 ++ number ip fp ++ "+" ++ st ++ w2)%string)
        = Ok (Some (decimal ip fp, 0, st))).
Proof.
  intros Hw1 Hw2 Hip Hfp. unfold parse_time, parse_time_body. split; [|split].
  - rewrite rmatch_leading_space, rmatch_trailing_space by assumption.
    cbv beta iota. rewrite float_number by assumption. reflexivity.
  - intros n Hn Hlen. rewrite rmatch_leading_space by assumption.
    change ("+" ++ n ++ w2)%string with (String "+" (n ++ w2)%string).
    rewrite rmatch_number by (assumption || reflexivity). cbv beta iota zeta.
    rewrite penalty_group_trailing, float_number by assumption.
    cbv beta iota delta [bind].
    rewrite (digits_not_override n Hn), (digits_not_empty n Hn), (int_of_digits n Hn Hlen).
    reflexivity.
  - intros st Hst. rewrite rmatch_leading_space by assumption.
    change ("+" ++ st ++ w2)%string with (String "+" (st ++ w2)%string).
    rewrite rmatch_number by (assumption || reflexivity). cbv beta iota zeta.
    assert (Hg : ReTime.penalty_group (st ++ w2)%string = Some st).
    { simpl in Hst. destruct Hst as [<- | [<- | [<- | [<- | []]]]];
        cbn [String.append ReTime.penalty_group Str.all];
        repeat (match goal with
                | |- context [Str.is_newline ?c] =>
                    change (Str.is_newline c) with false
                | |- context [Str.isspace ?c && _] =>
                    change (Str.isspace c) with false; cbn [andb]
                end; cbv iota);
        rewrite Hw2; reflexivity. }
    rewrite Hg, float_number by assumption.
    simpl in Hst. destruct Hst as [<- | [<- | [<- | [<- | []]]]]; reflexivity.
Qed.

Lemma parse_time_whitespace_witness :
  parse_time (Some "  45.123 ") = Ok (Some (decimal "45" "123", 0, "clean"))
  /\ parse_time (Some "  45.123+2 ") = Ok (Some (decimal "45" "123", 2, "dirty"))
  /\ parse_time (Some "  45.123+dsq ") = Ok (Some (decimal "45" "123", 0, "dsq")).
Proof.
  destruct (parse_time_whitespace "  " " " "45" "123" eq_refl eq_refl eq_refl eq_refl)
    as (Hc & Hd & Ho).
  split; [exact Hc|]. split; [apply (Hd "2" eq_refl); simpl; lia|].
  apply (Ho "dsq"). simpl. tauto.
Defined.

(** X2. A time needs digits on both sides of a decimal point: a string of
    digits alone, digits followed by a point and a point followed by digits
    are all rejected, and [parse_time] returns [None] on them. *)
Theorem parse_time_needs_fraction (n : string) :
  is_digits n = true ->
  parse_time (Some n) = Ok None
  /\ parse_time (Some (n ++ ".")%string) = Ok None
  /\ parse_time (Some ("." ++ n)%string) = Ok None.
Proof.
  intros Hn. destruct (digits_head n Hn) as (c & r & E & Hc).
  assert (Hstrip : forall rest, Str.lstrip_with Str.isspace (n ++ rest)%string
                                = (n ++ rest)%string).
  { intros rest. apply lstrip_none. rewrite E. cbn [String.append stops].
    now rewrite (digit_not_space c Hc). }
  split; [|split]; apply parse_time_no_match; unfold ReTime.rmatch.
  - rewrite <- (append_empty_r n), Hstrip.
    rewrite span_append by (auto using digits_all).
    now rewrite (digits_not_empty n Hn).
  - rewrite Hstrip. rewrite span_append by (auto using digits_all).
    now rewrite (digits_not_empty n Hn).
  - reflexivity.
Qed.

Lemma parse_time_needs_fraction_witness :
  parse_time (Some "45") = Ok None
  /\ parse_time (Some "45.") = Ok None
  /\ parse_time (Some ".45") = Ok None.
Proof. exact (parse_time_needs_fraction "45" eq_refl). Defined.

(** The groups of a match of [_re_time] are where the pattern puts them. *)
Lemma rmatch_inversion (s raw : string) (penalty : option string) :
  ReTime.rmatch s = Some (raw, penalty) ->
  exists w1 ip fp rest,
    s = (w1 ++ number ip fp ++ rest)%string
    /\ Str.all Str.isspace w1 = true
    /\ is_digits ip = true /\ is_digits fp = true
    /\ raw = number ip fp
    /\ match penalty with
       | None => Str.all Str.isspace rest = true
       | Some p =>
           exists w2, rest = ("+" ++ p ++ w2)%string
                      /\ Str.all Str.isspace w2 = true
                      /\ Str.is_empty p = false
       end.
Proof.
  unfold ReTime.rmatch.
  destruct (lstrip_split Str.isspace s) as (w1 & Hs & Hw1).
  destruct (Str.span Str.isdecimal (Str.lstrip_with Str.isspace s)) as [ip r1] eqn:Hip.
  apply span_split in Hip as (Hs1 & Hipd & _).
  destruct (Str.is_empty ip) eqn:Hipe; [discriminate|].
  destruct r1 as [|c r2]; [discriminate|].
  destruct c as [[] [] [] [] [] [] [] []]; try discriminate.
  destruct (Str.span Str.isdecimal r2) as [fp r3] eqn:Hfp.
  apply span_split in Hfp as (Hs2 & Hfpd & _).
  destruct (Str.is_empty fp) eqn:Hfpe; [discriminate|].
  intros H.
  assert (Hshape : s = (w1 ++ number ip fp ++ r3)%string
                   /\ is_digits ip = true /\ is_digits fp = true).
  { split; [|split].
    - rewrite Hs at 1. rewrite Hs1, Hs2. unfold number.
      now rewrite !append_assoc.
    - unfold is_digits. now rewrite Hipe, Hipd.
    - unfold is_digits. now rewrite Hfpe, Hfpd. }
  destruct Hshape as (Hshape & Hi & Hf).
  assert (Hplain : (if Str.all Str.isspace r3 then Some ((ip ++ "." ++ fp)%string, @None string)
                    else None) = Some (raw, penalty) ->
                   raw = number ip fp /\ penalty = None /\ Str.all Str.isspace r3 = true).
  { destruct (Str.all Str.isspace r3); [|discriminate]. intros [= <- <-]. auto. }
  assert (Hdone : forall q : option string,
             raw = number ip fp -> penalty = q ->
             match q with
             | None => Str.all Str.isspace r3 = true
             | Some p => exists w2, r3 = ("+" ++ p ++ w2)%string
                                    /\ Str.all Str.isspace w2 = true
                                    /\ Str.is_empty p = false
             end ->
             exists w1 ip fp rest,
               s = (w1 ++ number ip fp ++ rest)%string
               /\ Str.all Str.isspace w1 = true
               /\ is_digits ip = true /\ is_digits fp = true
               /\ raw = number ip fp
               /\ match penalty with
                  | None => Str.all Str.isspace rest = true
                  | Some p =>
                      exists w2, rest = ("+" ++ p ++ w2)%string
                                 /\ Str.all Str.isspace w2 = true
                                 /\ Str.is_empty p = false
                  end).
  { intros q Hraw -> Hq. exists w1, ip, fp, r3. auto 10. }
  destruct r3 as [|c r4].
  - destruct (Hplain H) as (Hraw & Hpen & Hsp). now apply (Hdone None).
  - destruct c as [[] [] [] [] [] [] [] []];
      try (destruct (Hplain H) as (Hraw & Hpen & Hsp); now apply (Hdone None)).
    destruct (ReTime.penalty_group r4) as [q|] eqn:Hq.
    + injection H as <- <-. apply (Hdone (Some q)); [reflexivity | reflexivity |].
      destruct (penalty_group_split _ _ Hq) as (w2 & -> & Hw2 & Hne).
      now exists w2.
    + destruct (Hplain H) as (Hraw & Hpen & Hsp). now apply (Hdone None).
Qed.

(** X3. Whatever [parse_time] returns as a run comes from a string of the
    expected shape: white space, a number [ip.fp] whose value is the time,
    and then either only white space (a clean run without cones) or [+],
    a non-empty suffix and white space, the suffix being the override
    status itself or an integer literal that is the cone count. *)
Theorem parse_time_inversion (s : string) (t : Q) (n : Z) (st : string) :
  parse_time (Some s) = Ok (Some (t, n, st)) ->
  exists w1 ip fp rest,
    s = (w1 ++ number ip fp ++ rest)%string
    /\ Str.all Str.isspace w1 = true
    /\ is_digits ip = true /\ is_digits fp = true
    /\ t = decimal ip fp
    /\ ((Str.all Str.isspace rest = true /\ n = 0 /\ st = "clean")
        \/ exists p w2,
             rest = ("+" ++ p ++ w2)%string
             /\ Str.all Str.isspace w2 = true
             /\ ((In p override_statuses /\ st = p /\ n = 0)
                 \/ (~ In p override_statuses /\ st = "dirty" /\ Str.int p = Some n))).
Proof.
  unfold parse_time, parse_time_body.
  destruct (ReTime.rmatch s) as [[raw penalty]|] eqn:Hm; [|discriminate].
  destruct (rmatch_inversion _ _ _ Hm) as (w1 & ip & fp & rest & Hs & Hw1 & Hip & Hfp & -> & Hpen).
  rewrite (float_number ip fp Hip Hfp). run_monad. intros H.
  exists w1, ip, fp, rest. do 5 (split; [assumption || reflexivity || idtac|]).
  - destruct penalty as [p|].
    + destruct (is_override (Some p)); [now injection H|].
      destruct (Str.is_empty p); [now injection H|].
      destruct (Str.int p); [now injection H | discriminate H].
    + now injection H.
  - destruct penalty as [p|].
    + right. destruct Hpen as (w2 & -> & Hw2 & Hne). exists p, w2.
      split; [reflexivity|]. split; [assumption|].
      destruct (is_override (Some p)) eqn:Ho.
      * left. apply is_override_In in Ho. injection H as _ <- <-. auto.
      * right. rewrite Hne in H. destruct (Str.int p) as [m|]; [|discriminate H].
        injection H as _ <- <-. split; [|auto].
        intros Hin. unfold is_override in Ho.
        assert (existsb (String.eqb p) override_statuses = true); [|congruence].
        apply existsb_exists. exists p. split; [assumption | apply String.eqb_refl].
    + left. injection H as _ <- <-. auto.
Qed.

Lemma parse_time_inversion_witness :
  exists w1 ip fp rest,
    " 36.020+1" = (w1 ++ number ip fp ++ rest)%string
    /\ Str.all Str.isspace w1 = true
    /\ is_digits ip = true /\ is_digits fp = true
    /\ decimal "36" "020" = decimal ip fp
    /\ ((Str.all Str.isspace rest = true /\ 1 = 0 /\ "dirty" = "clean")
        \/ exists p w2,
             rest = ("+" ++ p ++ w2)%string
             /\ Str.all Str.isspace w2 = true
             /\ ((In p override_statuses /\ "dirty" = p /\ 1 = 0)
                 \/ (~ In p override_statuses /\ "dirty" = "dirty" /\ Str.int p = Some 1))).
Proof. exact (parse_time_inversion " 36.020+1" _ _ _ eq_refl). Defined.

(** ** The run pattern and the cells of a row *)

Lemma num_group_is_digits (ds rest n : string) :
  Str.all Str.isdecimal ds = true ->
  ReRun.num_group ds rest = Some n -> is_digits n = true.
Proof.
  revert n. induction ds as [|d ds IH]; intros n Hds; [discriminate|].
  cbn [Str.all] in Hds. apply andb_true_iff in Hds as [Hd Hds].
  cbn [ReRun.num_group]. destruct (ReRun.num_group ds rest) as [m|].
  - intros [= <-]. specialize (IH m Hds eq_refl).
    unfold is_digits. cbn [Str.is_empty negb Str.all andb].
    rewrite Hd. now apply digits_all.
  - destruct (ReRun.tail_matches (ds ++ rest)%string); [|discriminate].
    intros [= <-]. unfold is_digits. cbn. now rewrite Hd.
Qed.

Lemma rmatch_num_is_digits (h num : string) :
  ReRun.rmatch h = Some num -> is_digits num = true.
Proof.
  unfold ReRun.rmatch. intros H.
  destruct (Str.lstrip_with Str.isspace h) as [|c1 s1]; [discriminate|].
  destruct c1 as [[] [] [] [] [] [] [] []]; try discriminate.
  destruct s1 as [|c2 s2]; [discriminate|].
  destruct c2 as [[] [] [] [] [] [] [] []]; try discriminate.
  destruct s2 as [|c3 s3]; [discriminate|].
  destruct c3 as [[] [] [] [] [] [] [] []]; try discriminate.
  destruct (Str.span Str.isdecimal (Str.lstrip_with Str.isspace s3)) as [ds rest] eqn:Hspan.
  apply span_split in Hspan as (_ & Hds & _).
  eapply num_group_is_digits; eassumption.
Qed.

(** X4. The number group of a header that matches [_re_run] is a non-empty
    string of digits, so the conversion of the run number at line 111 gives
    the number those digits denote; it raises only for a run number of more
    than 4300 digits, which [int] refuses. *)
Theorem run_number_is_integer (h num : string) :
  ReRun.rmatch h = Some num ->
  is_digits num = true
  /\ ((String.length num <= 4300)%nat -> Str.int num = Some (Str.digits_value num))
  /\ ((4300 < String.length num)%nat -> Str.int num = None).
Proof.
  intros H. apply rmatch_num_is_digits in H.
  split; [exact H|]. split; intros Hlen.
  - now apply int_of_digits.
  - now apply int_of_long_digits.
Qed.

Lemma run_number_is_integer_witness :
  is_digits "12" = true /\ Str.int "12" = Some (Str.digits_value "12").
Proof.
  destruct (run_number_is_integer "Run 12.." "12" eq_refl) as (Hd & Hshort & _).
  split; [exact Hd|]. apply Hshort. simpl. lia.
Defined.

Lemma run_cell_skip (acc : dict * list value) (h : string) (td : Td) :
  Str.contains "Run" h = true ->
  td_valign td = false \/ parse_time (Some (Str.strip (td_text td))) = Ok None ->
  cell_step acc (h, td) = Ok acc.
Proof.
  intros Hrun Hskip. destruct acc as [entry runs]. unfold cell_step.
  rewrite (run_cell_value _ _ Hrun), Hrun.
  destruct (parse_time_returns (Some (Str.strip (td_text td)))) as [r Hr].
  rewrite Hr. run_monad. destruct Hskip as [Hv | Hnone].
  - now rewrite Hv.
  - rewrite Hnone in Hr. injection Hr as <-. now destruct (td_valign td).
Qed.

(** X5. A cell of a run column is skipped, leaving the fields and the runs
    of the row as they are, when it has no [valign] attribute or when its
    text is not a time; this holds whatever the header, also one that
    [_re_run] rejects. *)
Theorem run_cell_skipped (acc : dict * list value) (h : string) (td : Td) :
  Str.contains "Run" h = true ->
  td_valign td = false \/ parse_time (Some (Str.strip (td_text td))) = Ok None ->
  cell_step acc (h, td) = Ok acc.
Proof. intros Hrun Hskip. now apply run_cell_skip. Qed.

Lemma run_cell_skipped_witness :
  cell_step (∅, []) ("Best Run", Samples.cell "35.500") = Ok (∅, [])
  /\ cell_step (∅, []) ("Best Run", Samples.run "n/a") = Ok (∅, []).
Proof.
  split.
  - apply run_cell_skipped; [reflexivity | left; reflexivity].
  - apply run_cell_skipped; [reflexivity | right; reflexivity].
Defined.

(** X6. A [T] anywhere in a position is ignored, and a position made of at
    most 4300 digits, with or without a trailing [T], is read as the number
    the digits denote. *)
Theorem pos_tie_marker (a b n : string) :
  cell_value "Pos" (a ++ "T" ++ b)%string = cell_value "Pos" (a ++ b)%string
  /\ (is_digits n = true -> (String.length n <= 4300)%nat ->
      cell_value "Pos" n = Ok (VInt (Str.digits_value n))
      /\ cell_value "Pos" (n ++ "T")%string = Ok (VInt (Str.digits_value n))).
Proof.
  split.
  - rewrite !pos_cell_value, !remove_char_append. reflexivity.
  - intros Hn Hlen. rewrite !pos_cell_value, remove_char_append.
    rewrite (remove_T_digits n (digits_all n Hn)).
    change (Str.remove_char "T" "T") with "". rewrite append_empty_r.
    now rewrite (int_of_digits n Hn Hlen).
Qed.

Lemma pos_tie_marker_witness :
  cell_value "Pos" "12" = Ok (VInt 12) /\ cell_value "Pos" "12T" = Ok (VInt 12).
Proof. apply (proj2 (pos_tie_marker "" "" "12") eq_refl). simpl. lia. Defined.




Lemma for_each_returns {S X : Type} (body : S -> X -> outcome S) (ok : X -> bool) (xs : list X) :
  (forall st x, returns (body st x) = ok x) ->
  forall st, returns (for_each body st xs) = forallb ok xs.
Proof.
  intros Hbody. induction xs as [|x xs IH]; intros st; [reflexivity|].
  cbn [for_each forallb]. rewrite <- (Hbody st x).
  destruct (body st x) as [st'|e]; simpl; [apply IH | reflexivity].
Qed.

Lemma cell_step_returns (acc : dict * list value) (hc : string * Td) :
  returns (cell_step acc hc) = cell_ok hc.
Proof.
  destruct acc as [entry runs], hc as [h td]. unfold cell_step, cell_ok, real_run.
  destruct (Str.contains "Run" h) eqn:Hrun.
  - rewrite (run_cell_value _ _ Hrun).
    destruct (parse_time_returns (Some (Str.strip (td_text td)))) as [r ->].
    run_monad. cbn [andb].
    destruct (td_valign td); [|reflexivity].
    destruct r as [[[t n] st]|]; [|reflexivity]. cbn [of_run].
    destruct (ReRun.rmatch h) as [num|] eqn:Hre; [|reflexivity].
    pose proof (rmatch_num_is_digits _ _ Hre) as Hnum.
    destruct (Nat.leb_spec (String.length num) Str.max_str_digits) as [Hlen|Hlen].
    + now rewrite (int_of_digits num Hnum Hlen).
    + now rewrite (int_of_long_digits num Hnum Hlen).
  - unfold cell_value. rewrite Hrun.
    destruct (String.eqb h "Pax Time") eqn:Hpax.
    + apply String.eqb_eq in Hpax. subst h.
      destruct (parse_time_returns (Some (Str.strip (td_text td)))) as [[[[t n] st]|] ->];
        reflexivity.
    + destruct (String.eqb h "Pos"); [|reflexivity].
      destruct (Str.int _); reflexivity.
Qed.

Lemma row_cells_returns (headers : list string) (row_data : list Td) :
  returns (row_cells headers row_data) = forallb cell_ok (zip headers row_data).
Proof. unfold row_cells. apply for_each_returns. apply cell_step_returns. Qed.

(** X8. The cells of a row are read without an exception exactly when every
    cell paired with a header is fine: no position that [int] refuses, and
    no real run under a header that [_re_run] rejects or whose run number
    has more than 4300 digits.  Nothing else in a row raises. *)
Theorem row_cells_returns_iff (headers : list string) (row_data : list Td) :
  returns (row_cells headers row_data) = forallb cell_ok (zip headers row_data).
Proof. apply row_cells_returns. Qed.

Lemma zip_longer_r {A B : Type} (l : list A) (k extra : list B) :
  (length l <= length k)%nat -> zip l (k ++ extra) = zip l k.
Proof.
  revert k. induction l as [|a l IH]; intros k Hlen; [reflexivity|].
  destruct k as [|b k]; [simpl in Hlen; lia|].
  cbn. f_equal. apply IH. simpl in Hlen. lia.
Qed.

Lemma zip_longer_l {A B : Type} (l more : list A) (k : list B) :
  (length k <= length l)%nat -> zip (l ++ more) k = zip l k.
Proof.
  revert l. induction k as [|b k IH]; intros l Hlen.
  - now rewrite !zip_with_nil_r.
  - destruct l as [|a l]; [simpl in Hlen; lia|].
    cbn. f_equal. apply IH. simpl in Hlen. lia.
Qed.

(** X9. Cells are paired with headers by position and the shorter of the two
    decides: cells beyond the last header are not read, and headers beyond
    the last cell give no field. *)
Theorem row_cells_positional (headers more : list string) (row_data extra : list Td) :
  ((length headers <= length row_data)%nat ->
   row_cells headers (row_data ++ extra) = row_cells headers row_data)
  /\ ((length row_data <= length headers)%nat ->
      row_cells (headers ++ more) row_data = row_cells headers row_data).
Proof.
  unfold row_cells. split; intros Hlen.
  - now rewrite zip_longer_r.
  - now rewrite zip_longer_l.
Qed.

Lemma row_cells_positional_witness :
  row_cells ["Driver"] [Samples.cell "Ann"; Samples.cell "abc"]
  = row_cells ["Driver"] [Samples.cell "Ann"]
  /\ row_cells ["Driver"; "Pos"] [Samples.cell "Ann"]
     = row_cells ["Driver"] [Samples.cell "Ann"].
Proof.
  split.
  - apply (proj1 (row_cells_positional ["Driver"] [] [Samples.cell "Ann"] [Samples.cell "abc"])).
    simpl. lia.
  - apply (proj2 (row_cells_positional ["Driver"] ["Pos"] [Samples.cell "Ann"] [])).
    simpl. lia.
Defined.

Lemma cell_step_entry (e e' : dict) (r r' : list value) (h : string) (td : Td) :
  cell_step (e, r) (h, td) = Ok (e', r') ->
  (Str.contains "Run" h = true /\ e' = e)
  \/ (Str.contains "Run" h = false
      /\ exists v, cell_value h (Str.strip (td_text td)) = Ok v /\ e' = <[h := v]> e).
Proof.
  unfold cell_step. destruct (Str.contains "Run" h) eqn:Hrun.
  - rewrite (run_cell_value _ _ Hrun).
    destruct (parse_time_returns (Some (Str.strip (td_text td)))) as [x ->].
    run_monad. intros H. left. split; [reflexivity|].
    destruct (td_valign td); [|now inversion H].
    destruct x as [[[t n] st]|]; cbn [of_run] in H; [|now inversion H].
    destruct (ReRun.rmatch h); [|discriminate H].
    destruct (Str.int _); [now inversion H | discriminate H].
  - destruct (cell_value h (Str.strip (td_text td))) as [v|]; run_monad; [|discriminate].
    intros H. right. split; [reflexivity|]. exists v. split; [reflexivity|]. now inversion H.
Qed.

Lemma cells_keys (l : list (string * Td)) (e e' : dict) (r r' : list value) (k : string) :
  for_each cell_step (e, r) l = Ok (e', r') ->
  is_Some (e' !! k) ->
  is_Some (e !! k)
  \/ (Str.contains "Run" k = false /\ exists td, In (k, td) l).
Proof.
  revert e r. induction l as [|[h td] l IH]; intros e r; cbn [for_each].
  - intros H. inversion H. auto.
  - destruct (cell_step (e, r) (h, td)) as [[e1 r1]|] eqn:Hstep; run_monad; [|discriminate].
    intros Hloop Hk. destruct (IH _ _ Hloop Hk) as [Hk1 | (Hrun & td' & Hin)].
    + apply cell_step_entry in Hstep as [[_ ->] | (Hrun & v & _ & ->)]; [now left|].
      destruct (decide (h = k)) as [-> | Hne].
      * right. split; [exact Hrun|]. exists td. now left.
      * rewrite lookup_insert_ne in Hk1 by exact Hne. now left.
    + right. split; [exact Hrun|]. exists td'. now right.
Qed.

Lemma zip_In_l {A B : Type} (l : list A) (k : list B) (a : A) (b : B) :
  In (a, b) (zip l k) -> In a l.
Proof.
  revert k. induction l as [|x l IH]; intros k H; [destruct H|].
  destruct k as [|y k]; [destruct H|].
  destruct H as [H | H]; [left; congruence | right; eauto].
Qed.

(** X10. The fields of a row are named by headers that do not contain
    [Run]; in particular no field is ever named [Runs], so attaching the
    runs to an entry overwrites nothing. *)
Theorem row_fields_keys (headers : list string) (row_data : list Td)
    (entry : dict) (runs : list value) :
  row_cells headers row_data = Ok (entry, runs) ->
  (forall k, is_Some (entry !! k) -> In k headers /\ Str.contains "Run" k = false)
  /\ entry !! "Runs" = None.
Proof.
  intros Hrow.
  assert (Hkeys : forall k, is_Some (entry !! k) ->
                            In k headers /\ Str.contains "Run" k = false).
  { intros k Hk. destruct (cells_keys _ _ _ _ _ k Hrow Hk) as [Hempty | (Hrun & td & Hin)].
    - rewrite lookup_empty in Hempty. now destruct Hempty.
    - split; [eapply zip_In_l; eassumption | exact Hrun]. }
  split; [exact Hkeys|].
  destruct (entry !! "Runs") eqn:E; [|reflexivity].
  destruct (Hkeys "Runs") as [_ H]; [now rewrite E | discriminate H].
Qed.

Lemma row_fields_keys_witness :
  exists (entry : dict) (runs : list value),
    row_cells ["Driver"; "Run 1"] [Samples.cell "Ann"; Samples.run "35.500"] = Ok (entry, runs)
    /\ entry !! "Runs" = None.
Proof.
  do 2 eexists. split; [reflexivity|].
  exact (proj2 (row_fields_keys ["Driver"; "Run 1"]
                  [Samples.cell "Ann"; Samples.run "35.500"] _ _ eq_refl)).
Defined.

Lemma cells_lookup_other (l : list (string * Td)) (e e' : dict) (r r' : list value) (k : string) :
  for_each cell_step (e, r) l = Ok (e', r') ->
  (forall hc, In hc l -> fst hc <> k) ->
  e' !! k = e !! k.
Proof.
  revert e r. induction l as [|[h td] l IH]; intros e r; cbn [for_each].
  - intros H _. now inversion H.
  - destruct (cell_step (e, r) (h, td)) as [[e1 r1]|] eqn:Hstep; run_monad; [|discriminate].
    intros Hloop Hother. rewrite (IH _ _ Hloop) by (intros hc Hin; apply Hother; now right).
    apply cell_step_entry in Hstep as [[_ ->] | (_ & v & _ & ->)]; [reflexivity|].
    apply lookup_insert_ne. apply (Hother (h, td)). now left.
Qed.

(** X11. When a header name occurs more than once, the field holds the value
    of the last cell under that name. *)
Theorem repeated_header_last_wins (hs1 hs2 : list string) (h : string)
    (r1 r2 : list Td) (td : Td) (entry : dict) (runs : list value) :
  length hs1 = length r1 ->
  ~ In h hs2 ->
  Str.contains "Run" h = false ->
  row_cells (hs1 ++ h :: hs2) (r1 ++ td :: r2) = Ok (entry, runs) ->
  exists v, cell_value h (Str.strip (td_text td)) = Ok v /\ entry !! h = Some v.
Proof.
  intros Hlen Hlast Hrun. unfold row_cells.
  rewrite zip_with_app by exact Hlen. rewrite for_each_app.
  destruct (for_each cell_step (∅, []) (zip hs1 r1)) as [[e1 x1]|]; run_monad; [|discriminate].
  cbn [zip_with for_each].
  destruct (cell_step (e1, x1) (h, td)) as [[e2 x2]|] eqn:Hstep; run_monad; [|discriminate].
  intros Hloop.
  apply cell_step_entry in Hstep as [[Hrun' _] | (_ & v & Hv & ->)]; [congruence|].
  exists v. split; [exact Hv|].
  rewrite (cells_lookup_other _ _ _ _ _ h Hloop).
  - apply lookup_insert_eq.
  - intros [h' td'] Hin. simpl. intros ->. apply Hlast. eapply zip_In_l; eassumption.
Qed.

Lemma repeated_header_last_wins_witness :
  exists (entry : dict) (runs : list value),
    row_cells ["Driver"; "Total"; "Total"]
      [Samples.cell "Ann"; Samples.cell "35.500"; Samples.cell "36.000"] = Ok (entry, runs)
    /\ exists v, cell_value "Total" "36.000" = Ok v /\ entry !! "Total" = Some v.
Proof.
  do 2 eexists. split; [reflexivity|].
  refine (repeated_header_last_wins ["Driver"; "Total"] [] "Total"
            [Samples.cell "Ann"; Samples.cell "35.500"] [] (Samples.cell "36.000")
            _ _ eq_refl _ eq_refl eq_refl).
  intros [].
Defined.

(** ** The document around the rows *)

(** X12. Only the last table of a document is read: the tables before it
    change nothing, and a document without a table raises [IndexError]. *)
Theorem last_table_only (tables : list Table) (t : Table) :
  parse_axware_live_results (tables ++ [t]) = parse_axware_live_results [t]
  /\ parse_axware_live_results [] = Raise IndexError.
Proof.
  split; [|reflexivity].
  unfold parse_axware_live_results, header_and_rows, last_table.
  now rewrite last_snoc.
Qed.

Lemma filter_rows_app (a b : list Tag) : filter_rows (a ++ b) = filter_rows a ++ filter_rows b.
Proof. unfold filter_rows. apply filter_app. Qed.

Lemma filter_rows_short (x : Tag) (l : list Tag) :
  (n_contents x <= 3)%nat -> filter_rows (x :: l) = filter_rows l.
Proof.
  intros Hx. unfold filter_rows.
  rewrite (filter_cons (fun y : Tag => Is_true (3 <? n_contents y)%nat)).
  destruct (decide _) as [H|H]; [|reflexivity].
  apply Is_true_true in H. apply Nat.ltb_lt in H. lia.
Qed.

Lemma filter_rows_all_short (t : list Tag) :
  Forall (fun x => (n_contents x <= 3)%nat) t -> filter_rows t = [].
Proof.
  induction 1 as [|x l Hx _ IH]; [reflexivity|].
  now rewrite filter_rows_short.
Qed.

(** X13. A tag with at most three children is no row: wherever it stands in
    the table, header row included, the result is the same without it; and
    a table with nothing but such tags has no header row, which raises
    [IndexError]. *)
Theorem short_rows_ignored (tables : list Table) (before after : list Tag) (x : Tag) :
  ((n_contents x <= 3)%nat ->
   parse_axware_live_results (tables ++ [before ++ x :: after])
   = parse_axware_live_results (tables ++ [before ++ after]))
  /\ (Forall (fun y => (n_contents y <= 3)%nat) before ->
      parse_axware_live_results (tables ++ [before]) = Raise IndexError).
Proof.
  unfold parse_axware_live_results, header_and_rows, last_table. split.
  - intros Hx. rewrite !last_snoc. run_monad.
    now rewrite !filter_rows_app, (filter_rows_short x after Hx).
  - intros Hall. rewrite last_snoc. run_monad.
    now rewrite (filter_rows_all_short before Hall).
Qed.

Lemma short_rows_ignored_witness :
  parse_axware_live_results
    [ [ Samples.header ["Pos"; "Driver"; "Total"; "Run 1"]; Samples.rule;
        Samples.row [Samples.cell "1"; Samples.cell "Ann"; Samples.cell "35.500"; Samples.run "35.500"] ] ]
  = parse_axware_live_results
      [ [ Samples.header ["Pos"; "Driver"; "Total"; "Run 1"];
          Samples.row [Samples.cell "1"; Samples.cell "Ann"; Samples.cell "35.500"; Samples.run "35.500"] ] ]
  /\ parse_axware_live_results [ [Samples.rule; Samples.rule] ] = Raise IndexError.
Proof.
  split.
  - apply (proj1 (short_rows_ignored []
                    [Samples.header ["Pos"; "Driver"; "Total"; "Run 1"]]
                    [Samples.row [Samples.cell "1"; Samples.cell "Ann"; Samples.cell "35.500";
                                  Samples.run "35.500"]]
                    Samples.rule)).
    simpl. lia.
  - apply (proj2 (short_rows_ignored [] [Samples.rule; Samples.rule] [] Samples.rule)).
    repeat constructor; simpl; lia.
Defined.

Lemma header_strings_none (cells : list (option string)) :
  In None cells -> header_strings cells = Raise AttributeError.
Proof.
  induction cells as [|c cells IH]; [intros []|].
  intros [-> | Hin]; [reflexivity|].
  destruct c as [t|]; [|reflexivity]. cbn [header_strings]. now rewrite IH.
Qed.

(** X14. A header cell without a single string (its [.string] is [None])
    makes the parse raise [AttributeError], whatever the result rows are. *)
Theorem header_without_string (tables : list Table) (t : Table)
    (header_row : Tag) (result_rows : list Tag) :
  filter_rows t = header_row :: result_rows ->
  In None (ths header_row) ->
  parse_axware_live_results (tables ++ [t]) = Raise AttributeError.
Proof.
  intros Hrows Hnone.
  unfold parse_axware_live_results, header_and_rows, last_table.
  rewrite last_snoc. run_monad. rewrite Hrows, (header_strings_none _ Hnone).
  reflexivity.
Qed.

Lemma header_without_string_witness :
  parse_axware_live_results
    [ [ mkTag 4 [Some "Pos"; None; Some "Total"; Some "Run 1"] [];
        Samples.row [Samples.cell "1"; Samples.cell "Ann"; Samples.cell "35.500"; Samples.run "35.500"] ] ]
  = Raise AttributeError.
Proof.
  apply (header_without_string []
           [ mkTag 4 [Some "Pos"; None; Some "Total"; Some "Run 1"] [];
             Samples.row [Samples.cell "1"; Samples.cell "Ann"; Samples.cell "35.500";
                          Samples.run "35.500"] ]
           (mkTag 4 [Some "Pos"; None; Some "Total"; Some "Run 1"] [])
           [Samples.row [Samples.cell "1"; Samples.cell "Ann"; Samples.cell "35.500";
                         Samples.run "35.500"]]).
  - reflexivity.
  - simpl. tauto.
Defined.

(** ** The entries of the result *)

Section ResultKeys.

Variable headers : list string.

Lemma row_keys_ok (row_data : list Td) (entry : dict) (runs : list value) :
  row_cells headers row_data = Ok (entry, runs) -> entry_keys_ok headers entry.
Proof.
  intros Hrow k Hk. right. right.
  destruct (cells_keys _ _ _ _ _ k Hrow Hk) as [Hempty | (Hrun & td & Hin)].
  - rewrite lookup_empty in Hempty. now destruct Hempty.
  - split; [eapply zip_In_l; eassumption | exact Hrun].
Qed.

Lemma insert_keys_ok (e : dict) (k : string) (v : value) :
  result_key headers k -> entry_keys_ok headers e -> entry_keys_ok headers (<[k := v]> e).
Proof.
  intros Hk He k' Hk'. destruct (decide (k = k')) as [<- | Hne]; [exact Hk|].
  rewrite lookup_insert_ne in Hk' by exact Hne. now apply He.
Qed.

Lemma emitted_runs (e : dict) (v : value) :
  entry_keys_ok headers e -> emitted headers (<["Runs" := v]> e).
Proof.
  intros He. split.
  - rewrite lookup_insert_eq. eauto.
  - apply insert_keys_ok; [now left | exact He].
Qed.

Lemma row_step_state_ok (multirow : bool) (st st' : State) (row : Tag) :
  state_ok headers st -> row_step headers multirow st row = Ok st' -> state_ok headers st'.
Proof.
  intros [Hres Hopen]. unfold row_step.
  destruct (row_cells headers (tds row)) as [[entry runs]|] eqn:Hrow; run_monad; [|discriminate].
  pose proof (row_keys_ok _ _ _ Hrow) as Hentry.
  destruct multirow.
  - destruct (tds row) as [|first cells]; [discriminate|].
    destruct (Str.is_empty (td_text first)).
    + destruct (current_entry st) as [ce|] eqn:Hce; [|discriminate].
      specialize (Hopen ce eq_refl).
      unfold take_diff. destruct (ce !! "Diff.").
      * run_monad. destruct (extend_runs (current_runs st) runs); [|discriminate].
        intros [= <-]. split; [exact Hres|]. cbn. now intros ? [= <-].
      * destruct (entry !! "Total"); run_monad; [|discriminate].
        destruct (extend_runs (current_runs st) runs); [|discriminate].
        intros [= <-]. split; [exact Hres|]. cbn. intros ? [= <-].
        apply insert_keys_ok; [right; now left | exact Hopen].
    + intros [= <-]. split; cbn.
      * unfold flush_previous. destruct (current_entry st) as [ce|]; [|exact Hres].
        destruct (truthy ce); [|exact Hres].
        apply Forall_app. split; [exact Hres|]. constructor; [|constructor].
        apply emitted_runs. now apply Hopen.
      * intros ? [= <-]. now rewrite dict_update_empty.
  - intros [= <-]. split; cbn; [|exact Hopen].
    apply Forall_app. split; [exact Hres|]. constructor; [|constructor].
    now apply emitted_runs.
Qed.

Lemma rows_state_ok (multirow : bool) (rows : list Tag) (st st' : State) :
  state_ok headers st -> for_each (row_step headers multirow) st rows = Ok st' -> state_ok headers st'.
Proof.
  revert st. induction rows as [|row rows IH]; intros st Hst; cbn [for_each].
  - now intros [= <-].
  - destruct (row_step headers multirow st row) as [st1|] eqn:Hstep; run_monad; [|discriminate].
    apply IH. eapply row_step_state_ok; eassumption.
Qed.

Lemma parse_rows_emitted (rows : list Tag) (res : list dict) :
  parse_rows headers rows = Ok res -> Forall (emitted headers) res.
Proof.
  unfold parse_rows.
  destruct (for_each (row_step headers (is_multirow headers)) initial rows) as [st|] eqn:Hloop;
    run_monad; [|discriminate].
  assert (Hinit : state_ok headers initial) by (split; [constructor | discriminate]).
  destruct (rows_state_ok _ _ _ _ Hinit Hloop) as [Hres Hopen].
  unfold finish. destruct (is_multirow headers); [|now intros [= <-]].
  destruct (current_entry st) as [ce|]; [|discriminate].
  intros [= <-]. apply Forall_app. split; [exact Hres|]. constructor; [|constructor].
  apply emitted_runs. now apply Hopen.
Qed.

End ResultKeys.

(** X15. In both layouts every entry of a result has the key [Runs], and its
    other keys are [Diff.] or header names that do not contain [Run]. *)
Theorem result_entries_keys (s : Document) (headers : list string) (result_rows : list Tag)
    (res : list dict) :
  header_and_rows s = Ok (headers, result_rows) ->
  parse_axware_live_results s = Ok res ->
  Forall (fun e : dict => is_Some (e !! "Runs") /\ entry_keys_ok headers e) res.
Proof.
  intros Hs. rewrite (parse_unfold _ _ _ Hs). apply parse_rows_emitted.
Qed.

Lemma result_entries_keys_witness :
  exists res : list dict,
    parse_axware_live_results Samples.multi = Ok res
    /\ Forall (fun e : dict =>
                 is_Some (e !! "Runs")
                 /\ entry_keys_ok ["Class"; "Driver"; "Total"; "Run 1.."; "Run 2.."; "Run 3.."] e)
         res.
Proof.
  destruct (parse_axware_live_results Samples.multi) as [res|e] eqn:Hres.
  - exists res. split; [reflexivity|].
    exact (result_entries_keys Samples.multi _ _ res eq_refl Hres).
  - assert (Hok : returns (parse_axware_live_results Samples.multi) = true)
      by (vm_compute; reflexivity).
    rewrite Hres in Hok. discriminate Hok.
Defined.

(** ** Single-row layout: when the parse returns *)

Lemma single_row_step_returns (headers : list string) (st : State) (row : Tag) :
  returns (row_step headers false st row) = forallb cell_ok (zip headers (tds row)).
Proof.
  rewrite <- row_cells_returns. unfold row_step.
  now destruct (row_cells headers (tds row)) as [[entry runs]|].
Qed.

(** X16. In the single-row layout the parse of a document returns exactly
    when every cell of every result row is fine (no position that [int]
    refuses, no real run under a header that [_re_run] rejects or whose run
    number has more than 4300 digits); nothing else makes it raise once the
    header row is found. *)
Theorem single_row_returns_iff (s : Document) (headers : list string) (result_rows : list Tag) :
  header_and_rows s = Ok (headers, result_rows) ->
  is_multirow headers = false ->
  returns (parse_axware_live_results s)
  = forallb (fun row => forallb cell_ok (zip headers (tds row))) result_rows.
Proof.
  intros Hs Hm. rewrite (parse_unfold _ _ _ Hs). unfold parse_rows. rewrite Hm.
  rewrite <- (for_each_returns (row_step headers false) _ result_rows
                (single_row_step_returns headers) initial).
  now destruct (for_each (row_step headers false) initial result_rows).
Qed.

Lemma single_row_returns_iff_witness :
  returns (parse_axware_live_results Samples.single) = true
  /\ returns (parse_axware_live_results Samples.bad_pos) = false.
Proof.
  split.
  - rewrite (single_row_returns_iff Samples.single _ _ eq_refl eq_refl). reflexivity.
  - rewrite (single_row_returns_iff Samples.bad_pos _ _ eq_refl eq_refl). reflexivity.
Defined.

(** ** Multi-row layout: groups of rows *)

Section Groups.

Variable headers : list string.

#[local] Abbreviation step := (row_step headers true).

Lemma opens_step (st : State) (row : Tag) (entry : dict) (runs : list value) :
  opens_entry row = true ->
  row_cells headers (tds row) = Ok (entry, runs) ->
  step st row = Ok {| results := flush_previous st;
                      current_entry := Some entry;
                      current_runs := Some runs |}.
Proof.
  unfold opens_entry, row_step. intros Hopen ->. run_monad.
  destruct (tds row) as [|first cells]; [discriminate|].
  apply negb_true_iff in Hopen. rewrite Hopen. cbn [negb].
  now rewrite dict_update_empty.
Qed.

Lemma continues_step (res : list dict) (ce : dict) (l : list value) (row : Tag)
    (entry : dict) (runs : list value) :
  continues_entry row = true ->
  row_cells headers (tds row) = Ok (entry, runs) ->
  step {| results := res; current_entry := Some ce; current_runs := Some l |} row
  = do ce' <- take_diff ce entry;
    Ok {| results := res; current_entry := Some ce'; current_runs := Some (l ++ runs) |}.
Proof.
  unfold continues_entry, row_step. intros Hcont ->. run_monad.
  destruct (tds row) as [|first cells]; [discriminate|].
  rewrite Hcont. cbn [negb current_entry current_runs results].
  destruct (take_diff ce entry); run_monad; [|reflexivity].
  now rewrite extend_runs_some.
Qed.

Lemma take_diff_present (ce entry : dict) :
  is_Some (ce !! "Diff.") -> take_diff ce entry = Ok ce.
Proof. intros [d Hd]. unfold take_diff. now rewrite Hd. Qed.

(** Once the open entry has a [Diff.], continuation rows only add runs. *)
Lemma continuation_rows (cs : list Tag) (res : list dict) (ce : dict) (l : list value) :
  is_Some (ce !! "Diff.") ->
  Forall (fun c => continues_entry c = true
                   /\ returns (row_cells headers (tds c)) = true) cs ->
  for_each step {| results := res; current_entry := Some ce; current_runs := Some l |} cs
  = Ok {| results := res; current_entry := Some ce;
          current_runs := Some (l ++ concat (map (fun c => valid_run_cells headers (tds c)) cs)) |}.
Proof.
  intros Hdiff Hcs. revert l. induction Hcs as [|c cs [Hc Hok] _ IH]; intros l.
  - cbn. now rewrite app_nil_r.
  - cbn [for_each map concat].
    destruct (row_cells headers (tds c)) as [[entry runs]|] eqn:Hrow; [|discriminate Hok].
    rewrite (continues_step _ _ _ _ _ _ Hc Hrow), (take_diff_present _ _ Hdiff).
    run_monad. rewrite IH, <- app_assoc.
    now rewrite (row_cells_runs _ _ _ _ Hrow).
Qed.

End Groups.

(** X17. In the multi-row layout the last entrant of a table may spread over
    any number of rows: after rows that were read without an exception, a
    row that opens an entry and the continuation rows that follow it give
    one entry, appended to what the earlier rows gave.  Its [Runs] are the
    real run cells of all these rows in order, and its [Diff.] is the
    [Total] of the first continuation row (unless the opening row has a
    [Diff.] field); the [Total] of later continuation rows is not looked
    at. *)
Theorem multirow_group (s : Document) (headers : list string)
    (before cs : list Tag) (primary c1 : Tag) (st : State)
    (e1 e2 : dict) (runs1 runs2 : list value) (total : value) :
  header_and_rows s = Ok (headers, before ++ primary :: c1 :: cs) ->
  is_multirow headers = true ->
  for_each (row_step headers true) initial before = Ok st ->
  opens_entry primary = true ->
  row_cells headers (tds primary) = Ok (e1, runs1) ->
  continues_entry c1 = true ->
  row_cells headers (tds c1) = Ok (e2, runs2) ->
  e2 !! "Total" = Some total ->
  Forall (fun c => continues_entry c = true
                   /\ returns (row_cells headers (tds c)) = true) cs ->
  parse_axware_live_results s
  = Ok (flush_previous st
        ++ [ <["Runs" := VList (valid_run_cells headers (tds primary)
                                ++ concat (map (fun c => valid_run_cells headers (tds c))
                                               (c1 :: cs)))]>
               (match e1 !! "Diff." with
                | Some _ => e1
                | None => <["Diff." := total]> e1
                end) ]).
Proof.
  intros Hs Hm Hbefore Hopen Hr1 Hc1 Hr2 Htotal Hcs.
  rewrite (parse_unfold _ _ _ Hs). unfold parse_rows. rewrite Hm.
  rewrite for_each_app, Hbefore. run_monad. cbn [for_each].
  rewrite (opens_step _ _ _ _ _ Hopen Hr1). run_monad.
  rewrite (continues_step _ _ _ _ _ _ _ Hc1 Hr2).
  assert (Hdiff : exists ce, take_diff e1 e2 = Ok ce /\ is_Some (ce !! "Diff.")
                  /\ ce = match e1 !! "Diff." with
                          | Some _ => e1
                          | None => <["Diff." := total]> e1
                          end).
  { unfold take_diff. destruct (e1 !! "Diff.") as [d|] eqn:Hd.
    - exists e1. rewrite Hd. eauto.
    - rewrite Htotal. eexists. split; [reflexivity|]. split; [|reflexivity].
      rewrite lookup_insert_eq. eauto. }
  destruct Hdiff as (ce & -> & Hce & ->). run_monad.
  rewrite (continuation_rows _ _ _ _ _ Hce Hcs). cbn [finish current_entry current_runs results of_runs].
  rewrite (row_cells_runs _ _ _ _ Hr1), (row_cells_runs _ _ _ _ Hr2).
  cbn [map concat]. now rewrite <- app_assoc.
Qed.

Lemma multirow_group_witness :
  exists e1 e2 : dict,
    parse_axware_live_results Samples.three_rows = Ok [e1; e2]
    /\ e2 !! "Diff." = Some (VStr "+0.600")
    /\ e2 !! "Runs"
       = Some (VList [VTuple (decimal "36" "100") 0 "clean";
                      VTuple (decimal "36" "300") 0 "clean";
                      VTuple (decimal "36" "200") 0 "clean";
                      VTuple (decimal "37" "000") 0 "dnf";
                      VTuple (decimal "36" "400") 0 "clean"]).
Proof.
  do 2 eexists. split.
  - refine (multirow_group Samples.three_rows _ [_] [_] _ _ _ _ _ _ _ (VStr "+0.600")
              eq_refl eq_refl eq_refl eq_refl eq_refl eq_refl eq_refl _ _).
    + vm_compute. reflexivity.
    + constructor; [split; reflexivity | constructor].
  - split; vm_compute; reflexivity.
Defined.

(** ** Multi-row layout: how many entries *)

Lemma cells_keep (l : list (string * Td)) (e e' : dict) (r r' : list value) (k : string) :
  for_each cell_step (e, r) l = Ok (e', r') -> is_Some (e !! k) -> is_Some (e' !! k).
Proof.
  revert e r. induction l as [|[h td] l IH]; intros e r; cbn [for_each].
  - intros H. now inversion H.
  - destruct (cell_step (e, r) (h, td)) as [[e1 r1]|] eqn:Hstep; run_monad; [|discriminate].
    intros Hloop Hk. apply (IH _ _ Hloop).
    apply cell_step_entry in Hstep as [[_ ->] | (_ & v & _ & ->)]; [exact Hk|].
    rewrite lookup_insert_is_Some. destruct (decide (h = k)); auto.
Qed.

Lemma first_field (h0 : string) (hs : list string) (first : Td) (cells : list Td)
    (entry : dict) (runs : list value) :
  Str.contains "Run" h0 = false ->
  row_cells (h0 :: hs) (first :: cells) = Ok (entry, runs) ->
  is_Some (entry !! h0).
Proof.
  intros Hrun. unfold row_cells. cbn [zip_with for_each].
  destruct (cell_step (∅, []) (h0, first)) as [[e1 r1]|] eqn:Hstep; run_monad; [|discriminate].
  intros Hloop. apply (cells_keep _ _ _ _ _ h0 Hloop).
  apply cell_step_entry in Hstep as [[Hrun' _] | (_ & v & _ & ->)]; [congruence|].
  rewrite lookup_insert_eq. eauto.
Qed.

Lemma truthy_of_lookup (e : dict) (k : string) : is_Some (e !! k) -> truthy e = true.
Proof.
  intros [v Hv]. unfold truthy. apply negb_true_iff, Nat.eqb_neq.
  intros Hsize. apply map_size_empty_iff in Hsize. subst e.
  rewrite lookup_empty in Hv. discriminate Hv.
Qed.

Section Counting.

Variables (h0 : string) (hs : list string).
Hypothesis Hfirst : Str.contains "Run" h0 = false.

Lemma count_step (st st' : State) (row : Tag) :
  (forall ce, current_entry st = Some ce -> is_Some (ce !! h0)) ->
  row_step (h0 :: hs) true st row = Ok st' ->
  (forall ce, current_entry st' = Some ce -> is_Some (ce !! h0))
  /\ (length (results st') + open_count st'
      = length (results st) + open_count st + (if opens_entry row then 1 else 0))%nat.
Proof.
  intros Hopen. unfold row_step, opens_entry, open_count.
  destruct (row_cells (h0 :: hs) (tds row)) as [[entry runs]|] eqn:Hrow; run_monad; [|discriminate].
  destruct (tds row) as [|first cells]; [discriminate|].
  pose proof (first_field _ _ _ _ _ _ Hfirst Hrow) as Hentry.
  destruct (Str.is_empty (td_text first)).
  - destruct (current_entry st) as [ce|] eqn:Hce; [|discriminate].
    specialize (Hopen ce eq_refl).
    assert (Hdiff : forall ce', take_diff ce entry = Ok ce' -> is_Some (ce' !! h0)).
    { unfold take_diff. destruct (ce !! "Diff."); [now intros ? [= <-]|].
      destruct (entry !! "Total"); [|discriminate]. intros ? [= <-].
      rewrite lookup_insert_is_Some. destruct (decide ("Diff." = h0)); auto. }
    destruct (take_diff ce entry) as [ce'|]; run_monad; [|discriminate].
    destruct (extend_runs (current_runs st) runs); [|discriminate].
    intros [= <-]. cbn. split; [|lia]. intros ? [= <-]. now apply Hdiff.
  - intros [= <-]. cbn. rewrite dict_update_empty. split; [now intros ? [= <-]|].
    unfold flush_previous. destruct (current_entry st) as [ce|]; [|lia].
    rewrite (truthy_of_lookup ce h0 (Hopen ce eq_refl)), length_app. cbn. lia.
Qed.

Lemma count_loop (rows : list Tag) (st st' : State) :
  (forall ce, current_entry st = Some ce -> is_Some (ce !! h0)) ->
  for_each (row_step (h0 :: hs) true) st rows = Ok st' ->
  (length (results st') + open_count st'
   = length (results st) + open_count st + length (List.filter opens_entry rows))%nat.
Proof.
  revert st. induction rows as [|row rows IH]; intros st Hopen; cbn [for_each List.filter].
  - intros [= <-]. cbn. lia.
  - destruct (row_step (h0 :: hs) true st row) as [st1|] eqn:Hstep; run_monad; [|discriminate].
    destruct (count_step _ _ _ Hopen Hstep) as [Hopen1 Hcount].
    intros Hloop. rewrite (IH _ Hopen1 Hloop), Hcount.
    destruct (opens_entry row); cbn [length]; lia.
Qed.

End Counting.

(** X18. In the multi-row layout, when the first column is not a run column,
    a parse that returns gives exactly one entry for each result row whose
    first cell has text: continuation rows add no entry and no opening row
    is lost. *)
Theorem multirow_entry_count (s : Document) (h0 : string) (hs : list string)
    (result_rows : list Tag) (res : list dict) :
  header_and_rows s = Ok (h0 :: hs, result_rows) ->
  is_multirow (h0 :: hs) = true ->
  Str.contains "Run" h0 = false ->
  parse_axware_live_results s = Ok res ->
  length res = length (List.filter opens_entry result_rows).
Proof.
  intros Hs Hm Hfirst. rewrite (parse_unfold _ _ _ Hs). unfold parse_rows. rewrite Hm.
  destruct (for_each (row_step (h0 :: hs) true) initial result_rows) as [st|] eqn:Hloop;
    run_monad; [|discriminate].
  apply (count_loop h0 hs Hfirst) in Hloop; [|discriminate].
  unfold finish, open_count in *. destruct (current_entry st); [|discriminate].
  intros [= <-]. rewrite length_app. cbn in *. lia.
Qed.

Lemma multirow_entry_count_witness :
  exists res : list dict,
    parse_axware_live_results Samples.three_rows = Ok res /\ length res = 2%nat.
Proof.
  destruct (parse_axware_live_results Samples.three_rows) as [res|e] eqn:Hres.
  - exists res. split; [reflexivity|].
    exact (multirow_entry_count Samples.three_rows _ _ _ res eq_refl eq_refl eq_refl Hres).
  - assert (Hok : returns (parse_axware_live_results Samples.three_rows) = true)
      by (vm_compute; reflexivity).
    rewrite Hres in Hok. discriminate Hok.
Defined.

Section RunColumnsOnly.

Variable headers : list string.
Hypothesis Hruns : Forall (fun h => Str.contains "Run" h = true) headers.

Lemma no_fields (row_data : list Td) (entry : dict) (runs : list value) :
  row_cells headers row_data = Ok (entry, runs) -> entry = ∅.
Proof.
  intros Hrow. apply map_empty. intros k.
  destruct (entry !! k) as [v|] eqn:Hk; [|reflexivity]. exfalso.
  destruct (cells_keys _ _ _ _ _ k Hrow) as [Hempty | (Hrun & td & Hin)].
  - rewrite Hk. eauto.
  - rewrite lookup_empty in Hempty. now destruct Hempty.
  - apply zip_In_l in Hin. rewrite Forall_forall in Hruns.
    specialize (Hruns k). rewrite <- list_elem_of_In in Hin.
    specialize (Hruns Hin). congruence.
Qed.

Lemma runs_only_step (st st' : State) (row : Tag) :
  results st = [] ->
  (forall ce, current_entry st = Some ce -> ce = ∅) ->
  row_step headers true st row = Ok st' ->
  results st' = [] /\ (forall ce, current_entry st' = Some ce -> ce = ∅).
Proof.
  intros Hres Hopen. unfold row_step.
  destruct (row_cells headers (tds row)) as [[entry runs]|] eqn:Hrow; run_monad; [|discriminate].
  apply no_fields in Hrow. subst entry.
  destruct (tds row) as [|first cells]; [discriminate|].
  destruct (Str.is_empty (td_text first)).
  - destruct (current_entry st) as [ce|] eqn:Hce; [|discriminate].
    rewrite (Hopen ce eq_refl). discriminate.
  - intros [= <-]. cbn. rewrite dict_update_empty. split; [|now intros ? [= <-]].
    unfold flush_previous. destruct (current_entry st) as [ce|]; [|exact Hres].
    now rewrite (Hopen ce eq_refl).
Qed.

Lemma runs_only_loop (rows : list Tag) (st st' : State) :
  results st = [] ->
  (forall ce, current_entry st = Some ce -> ce = ∅) ->
  for_each (row_step headers true) st rows = Ok st' ->
  results st' = [] /\ (forall ce, current_entry st' = Some ce -> ce = ∅).
Proof.
  revert st. induction rows as [|row rows IH]; intros st Hres Hopen; cbn [for_each].
  - intros [= <-]. auto.
  - destruct (row_step headers true st row) as [st1|] eqn:Hstep; run_monad; [|discriminate].
    destruct (runs_only_step _ _ _ Hres Hopen Hstep) as [Hres1 Hopen1].
    now apply IH.
Qed.

End RunColumnsOnly.

(** X19. An open entry is emitted only if it has a field.  In a multi-row
    table where every column is a run column no row has a field, so a parse
    that returns gives a single entry, made of the key [Runs] alone,
    however many rows open an entry: the earlier ones are dropped. *)
Theorem run_columns_only_one_entry (s : Document) (headers : list string)
    (result_rows : list Tag) (res : list dict) :
  header_and_rows s = Ok (headers, result_rows) ->
  is_multirow headers = true ->
  Forall (fun h => Str.contains "Run" h = true) headers ->
  parse_axware_live_results s = Ok res ->
  exists v, res = [ <["Runs" := v]> ∅ ].
Proof.
  intros Hs Hm Hruns. rewrite (parse_unfold _ _ _ Hs). unfold parse_rows. rewrite Hm.
  destruct (for_each (row_step headers true) initial result_rows) as [st|] eqn:Hloop;
    run_monad; [|discriminate].
  apply (runs_only_loop headers Hruns) in Hloop as [Hres Hopen];
    [|reflexivity | discriminate].
  unfold finish. destruct (current_entry st) as [ce|] eqn:Hce; [|discriminate].
  intros [= <-]. rewrite Hres, (Hopen ce eq_refl). cbn. eauto.
Qed.

Lemma run_columns_only_one_entry_witness :
  exists v, parse_axware_live_results Samples.runs_only = Ok [ <["Runs" := v]> ∅ ].
Proof.
  destruct (parse_axware_live_results Samples.runs_only) as [res|e] eqn:Hres.
  - destruct (run_columns_only_one_entry Samples.runs_only _ _ res eq_refl eq_refl) as [v Hv].
    + repeat constructor.
    + exact Hres.
    + exists v. now rewrite Hv.
  - assert (Hok : returns (parse_axware_live_results Samples.runs_only) = true)
      by (vm_compute; reflexivity).
    rewrite Hres in Hok. discriminate Hok.
Defined.

(** ** Multi-row layout: entrants on one row each *)

Section OneRowEach.

Variables (h0 : string) (hs : list string).
Hypothesis Hfirst : Str.contains "Run" h0 = false.

Lemma opening_rows (rows : list Tag) (st st' : State) :
  (forall ce, current_entry st = Some ce -> is_Some (ce !! h0)) ->
  Forall (fun row => opens_entry row = true) rows ->
  for_each (row_step (h0 :: hs) true) st rows = Ok st' ->
  (forall ce, current_entry st' = Some ce -> is_Some (ce !! h0))
  /\ exists added,
       results st' ++ pending st' = results st ++ pending st ++ added
       /\ Forall2 (own_row_entry (h0 :: hs)) added rows.
Proof.
  intros Hopen Hrows. revert st Hopen.
  induction Hrows as [|row rows Hrow _ IH]; intros st Hopen; cbn [for_each].
  - intros [= <-]. split; [exact Hopen|]. exists []. rewrite app_nil_r. split; [reflexivity | constructor].
  - destruct (row_cells (h0 :: hs) (tds row)) as [[entry runs]|] eqn:Hcells.
    + rewrite (opens_step _ _ _ _ _ Hrow Hcells). run_monad. intros Hloop.
      assert (Hentry : is_Some (entry !! h0)).
      { unfold opens_entry in Hrow. destruct (tds row) as [|first cells]; [discriminate|].
        eapply first_field; eassumption. }
      apply IH in Hloop as (Hopen' & added & Hres & Hall); [|now intros ? [= <-]].
      split; [exact Hopen'|].
      exists (<["Runs" := VList runs]> entry :: added). split.
      * rewrite Hres. cbn [results pending current_entry current_runs of_runs].
        unfold flush_previous, pending. destruct (current_entry st) as [ce|].
        -- rewrite (truthy_of_lookup ce h0 (Hopen ce eq_refl)).
           rewrite <- ?app_assoc. reflexivity.
        -- rewrite <- ?app_assoc. reflexivity.
      * constructor; [|exact Hall]. exists entry, runs. split; [exact Hcells|].
        now rewrite <- (row_cells_runs _ _ _ _ Hcells).
    + unfold row_step at 1. rewrite Hcells. discriminate.
Qed.

End OneRowEach.

(** X20. The multi-row layout keeps the runs of an entrant on a single row:
    when the first column is not a run column and every result row opens
    an entry, a parse that returns gives, row for row, the fields of the
    row with [Runs] set to the real run cells of that row. *)
Theorem multirow_one_row_each (s : Document) (h0 : string) (hs : list string)
    (result_rows : list Tag) (res : list dict) :
  header_and_rows s = Ok (h0 :: hs, result_rows) ->
  is_multirow (h0 :: hs) = true ->
  Str.contains "Run" h0 = false ->
  Forall (fun row => opens_entry row = true) result_rows ->
  parse_axware_live_results s = Ok res ->
  Forall2 (own_row_entry (h0 :: hs)) res result_rows.
Proof.
  intros Hs Hm Hfirst Hrows. rewrite (parse_unfold _ _ _ Hs). unfold parse_rows. rewrite Hm.
  destruct (for_each (row_step (h0 :: hs) true) initial result_rows) as [st|] eqn:Hloop;
    run_monad; [|discriminate].
  apply (opening_rows h0 hs Hfirst) in Hloop as (_ & added & Hres & Hall);
    [|discriminate | exact Hrows].
  unfold finish. unfold pending in Hres.
  destruct (current_entry st) as [ce|]; [|discriminate].
  intros [= <-]. rewrite Hres. exact Hall.
Qed.

Lemma multirow_one_row_each_witness :
  exists res : list dict,
    parse_axware_live_results Samples.one_row_each = Ok res
    /\ Forall2 (own_row_entry ["Class"; "Driver"; "Total"; "Run 1.."; "Run 2.."]) res
         [ Samples.row [Samples.cell "1"; Samples.cell "Ann"; Samples.cell "35.500";
                        Samples.run "35.500"; Samples.run "36.020+1"];
           Samples.row [Samples.cell "2"; Samples.cell "Bob"; Samples.cell "36.100";
                        Samples.run "36.100"; Samples.cell ""] ].
Proof.
  destruct (parse_axware_live_results Samples.one_row_each) as [res|e] eqn:Hres.
  - exists res. split; [reflexivity|].
    refine (multirow_one_row_each Samples.one_row_each _ _ _ res eq_refl eq_refl eq_refl _ Hres).
    repeat constructor.
  - assert (Hok : returns (parse_axware_live_results Samples.one_row_each) = true)
      by (vm_compute; reflexivity).
    rewrite Hres in Hok. discriminate Hok.
Defined.

(** ** Header names *)

Lemma header_strings_strip (names : list string) :
  header_strings (map Some names) = Ok (map Str.strip names).
Proof.
  induction names as [|t names IH]; [reflexivity|].
  cbn [map header_strings]. now rewrite IH.
Qed.

(** X21. Header names are taken stripped: white space around the string of a
    header cell plays no part in what column it is, so a header cell
    [" Pos "] heads the position column and [" Run 1.. "] selects the
    multi-row layout. *)
Theorem header_names_stripped (tables : list Table) (t : Table) (header_row : Tag)
    (result_rows : list Tag) (names : list string) :
  filter_rows t = header_row :: result_rows ->
  ths header_row = map Some names ->
  header_and_rows (tables ++ [t]) = Ok (map Str.strip names, result_rows)
  /\ parse_axware_live_results (tables ++ [t])
     = parse_rows (map Str.strip names) result_rows.
Proof.
  intros Hrows Hths.
  assert (H : header_and_rows (tables ++ [t]) = Ok (map Str.strip names, result_rows)).
  { unfold header_and_rows, last_table. rewrite last_snoc. run_monad.
    now rewrite Hrows, Hths, header_strings_strip. }
  split; [exact H | now apply parse_unfold].
Qed.

Lemma header_names_stripped_witness :
  header_and_rows [ [ mkTag 4 [Some " Pos "; Some "Driver"; Some "Total"; Some " Run 1.. "] [] ] ]
  = Ok (["Pos"; "Driver"; "Total"; "Run 1.."], []).
Proof.
  exact (proj1 (header_names_stripped []
                  [ mkTag 4 [Some " Pos "; Some "Driver"; Some "Total"; Some " Run 1.. "] [] ]
                  (mkTag 4 [Some " Pos "; Some "Driver"; Some "Total"; Some " Run 1.. "] [])
                  [] [" Pos "; "Driver"; "Total"; " Run 1.. "] eq_refl eq_refl)).
Defined.
